(** * linguistic-style-transfer: the command-line driver and the t-SNE helper

    A shallow embedding of
    [linguistic_style_transfer_model/main.py] and
    [linguistic_style_transfer_model/utils/tsne_interface.py].

    Python integers are [Z]; Python lists are [list]; a Python [dict] is an
    association list in insertion order with pairwise distinct keys (the
    order is what [for label in d] iterates in); pickled files live in a
    [gmap] from paths to pickled values.  Python exceptions and
    [sys.exit] are the non-[Return] cases of [outcome].  Floating point
    numbers are idealised as rationals ([Q]): nothing below depends on
    rounding. *)

From Stdlib Require Import ZArith QArith.
From stdpp Require Import base option list gmap strings.

Local Open Scope string_scope.
Local Open Scope list_scope.
Local Open Scope Z_scope.

(** ** Outcomes of Python code *)

Inductive exn : Set :=
| KeyError
| IndexError
| ValueError
| ZeroDivisionError
| FileNotFoundError.

Inductive outcome (A : Type) : Type :=
| Return (a : A)
| Raise (e : exn)
| SystemExit (code : Z).

Arguments Return {A} a.
Arguments Raise {A} e.
Arguments SystemExit {A} code.

#[global] Instance outcome_ret : MRet outcome := @Return.
#[global] Instance outcome_bind : MBind outcome := fun A B f x =>
  match x with
  | Return a => f a
  | Raise e => Raise e
  | SystemExit c => SystemExit c
  end.

Definition of_option {A} (e : exn) (o : option A) : outcome A :=
  match o with
  | Some a => Return a
  | None => Raise e
  end.

(** ** Python primitives *)

Module Py.

(** [a % b]: floored remainder, [ZeroDivisionError] when [b = 0]. *)
Definition mod_ (a b : Z) : outcome Z :=
  if decide (b = 0) then Raise ZeroDivisionError else Return (a mod b).

(** [range(n)] *)
Definition range (n : Z) : list Z := Z.of_nat <$> seq 0 (Z.to_nat n).

(** [l[i]] for an index produced by [range] or a literal [0]; a negative
    index counts from the end, as in Python. *)
Definition getitem {A} (l : list A) (i : Z) : outcome A :=
  let j := if decide (i < 0) then i + Z.of_nat (length l) else i in
  if decide (j < 0) then Raise IndexError
  else of_option IndexError (l !! Z.to_nat j).

(** The bound [k] of a slice, clamped to [0 .. len] as Python does. *)
Definition clamp (len : nat) (k : Z) : nat :=
  if decide (k < 0) then Z.to_nat (Z.max 0 (k + Z.of_nat len))
  else Nat.min (Z.to_nat k) len.

(** [l[:k]] *)
Definition slice_to {A} (l : list A) (k : Z) : list A :=
  take (clamp (length l) k) l.

(** [l[i:j]] *)
Definition slice {A} (l : list A) (i j : Z) : list A :=
  let a := clamp (length l) i in
  let b := clamp (length l) j in
  take (b - a) (drop a l).

(** [min(l)], [ValueError] on an empty sequence. *)
Definition min_ (l : list Z) : outcome Z :=
  match l with
  | [] => Raise ValueError
  | x :: r => Return (foldr Z.min x r)
  end.

(** [zip(a, b)] is [zip] of stdpp: it stops at the shorter list. *)

End Py.

(** ** Insertion-ordered dictionaries *)

Section PyDict.
Context {K V : Type} `{EqDecision K}.

(** [d[k]], [None] standing for [KeyError] *)
Fixpoint pydict_get (d : list (K * V)) (k : K) : option V :=
  match d with
  | [] => None
  | (k', v) :: r => if decide (k' = k) then Some v else pydict_get r k
  end.

(** [d[k] = v]: an existing key keeps its place, a new one goes last. *)
Fixpoint pydict_set (d : list (K * V)) (k : K) (v : V) : list (K * V) :=
  match d with
  | [] => [(k, v)]
  | (k', v') :: r =>
      if decide (k' = k) then (k, v) :: r else (k', v') :: pydict_set r k v
  end.

(** [k in d] *)
Definition pydict_mem (d : list (K * V)) (k : K) : bool :=
  bool_decide (is_Some (pydict_get d k)).

Definition pydict_keys (d : list (K * V)) : list K := d.*1.

End PyDict.

(** ** Data exchanged with the collaborators *)

Abbreviation vec := (list Q).
Abbreviation matrix := (list (list Q)).

(** What [data_preprocessor.get_text_sequences] returns. *)
Record text_data := {
  padded_sequences : list (list Z);
  text_sequence_lengths : list Z;
  word_index : list (string * Z);
  max_sequence_length : Z;
  actual_sequences : list (list Z);
}.

(** What [data_preprocessor.get_labels] returns. *)
Record label_data := {
  one_hot_labels : list (list Z);
  num_labels : Z;
  label_sequences : list (list Z);
}.

(** What [pickle.dump] and [open(..., 'w')] leave in a file. *)
Inductive file_content :=
| StyleEmbeddings (rows : list vec)
| LabelEmbeddingMap (m : list (Z * list vec))
| Coordinates (pts : list vec) (markers : list Z)
| TextLines (lines : list string).

(** Module-level configuration objects ([global_config], [model_config]);
    their module is not part of the sources at hand, so the constants are
    fields of a record. *)
Record config := {
  logger_name : string;
  sos_token : string;
  eos_token : string;
  embedding_size : Z;
  word_vector_path : string;
  all_style_embeddings_path : string;
  label_mapped_style_embeddings_path : string;
  batch_size : Z;
}.

(** ** Element-wise mean, [np.mean(rows, axis=0)] *)

Definition vadd (a b : vec) : vec := zip_with Qplus a b.

Definition np_mean_axis0 (rows : list vec) : option vec :=
  match rows with
  | [] => None
  | r :: rs =>
      if forallb (fun x => Nat.eqb (length x) (length r)) rs
      then Some ((fun s => (s / inject_Z (Z.of_nat (length rows)))%Q)
                   <$> foldl vadd r rs)
      else None
  end.

(** ** [get_average_label_embeddings]: the two loops *)

(** Lines 43-46, one iteration of the first loop. *)
Definition label_embedding_step (label_sequences : list (list Z))
    (style_embeddings : list vec) (label_embedding_map : list (Z * list vec))
    (i : Z) : outcome (list (Z * list vec)) :=
  row ← Py.getitem label_sequences i;
  label ← Py.getitem row 0;
  let label_embedding_map :=
    if pydict_mem label_embedding_map label then label_embedding_map
    else pydict_set label_embedding_map label [] in
  group ← of_option KeyError (pydict_get label_embedding_map label);
  e ← Py.getitem style_embeddings i;
  mret (pydict_set label_embedding_map label (group ++ [e])).

(** A [for] loop whose body may raise. *)
Fixpoint for_each {A S} (body : S -> A -> outcome S) (l : list A) (s : S)
    : outcome S :=
  match l with
  | [] => Return s
  | a :: r => s' ← body s a; for_each body r s'
  end.

(** Lines 41-46. *)
Definition label_embedding_loop (cfg : config) (data_size : Z)
    (label_sequences : list (list Z)) (style_embeddings : list vec)
    : outcome (list (Z * list vec)) :=
  r ← Py.mod_ data_size (batch_size cfg);
  for_each (label_embedding_step label_sequences style_embeddings)
    (Py.range (data_size - r)) [].

(** Lines 52-54. [np.mean] of a group whose rows differ in length is an
    error of NumPy; it is reported as [ValueError]. *)
Definition average_loop (label_embedding_map : list (Z * list vec))
    : outcome (list (Z * vec)) :=
  for_each (fun average_label_embeddings '(label, group) =>
              m ← of_option ValueError (np_mean_axis0 group);
              mret (pydict_set average_label_embeddings label m))
    label_embedding_map [].

(** ** The driver's effects

    [main] talks to its collaborators (preprocessing, the model, TensorFlow
    sessions, the BLEU scorer, the file system, the clock and the random
    number generators).  Each such call is recorded as an [event]; what a
    collaborator answers is a field of [world]. *)

Inductive event :=
| SetupLogger (name level : string)
| Log (level message : string) (args : list Z)
| GetTextSequences (path : string) (vocab_size : Z)
| GetLabels (path : string)
| RandomUniform (rows cols : Z)
| AddWordVectors (path : string)
| BuildModel
| SessionOpen (sess : nat)
| SessionClose (sess : nat)
| Train (sess : nat) (data_size epochs : Z)
| Infer (sess : nat) (offset samples_size : Z)
| GenerateNovelSentences (sess : nat) (offset samples_size : Z)
    (style_embedding : vec)
| Randint (a b : Z)
| PickleLoad (path : string)
| PickleDump (path : string)
| CorpusBleu (references hypotheses : nat)
| WriteLines (path : string) (lines : nat).

(** The arguments of [AdversarialAutoencoder(...)]. *)
Record network := {
  net_num_labels : Z;
  net_max_sequence_length : Z;
  net_vocab_size : Z;
  net_sos_index : Z;
  net_eos_index : Z;
  net_encoder_embedding_matrix : matrix;
  net_decoder_embedding_matrix : matrix;
  net_padded_sequences : list (list Z);
  net_one_hot_labels : list (list Z);
  net_text_sequence_lengths : list Z;
  net_label_sequences : list (list Z);
}.

Record world := {
  cfg : config;
  (** [data_preprocessor] *)
  get_text_sequences : string -> Z -> text_data;
  get_labels : string -> label_data;
  (** [data_postprocessor], [bleu_scorer], [word_embedder] *)
  generate_words_from_indices : list Z -> list (Z * string) -> list string;
  get_corpus_bleu_scores :
    list (list (list string)) -> list (list string) -> list Q;
  add_word_vectors_to_embeddings :
    list (string * Z) -> string -> matrix -> matrix -> Z -> matrix * matrix;
  (** the [k]-th call of [np.random.uniform] with the given shape *)
  random_uniform : nat -> Z -> Z -> matrix;
  (** the entropy behind the [k]-th call of [random.randint] *)
  random_integer : nat -> Z;
  (** what [network.train] leaves on disk *)
  train : network -> gmap string file_content -> Z -> Z ->
          gmap string file_content;
  (** what [network.infer] and [network.generate_novel_sentences] return:
      generated sequences and their final lengths *)
  infer : network -> Z -> Z -> list (list Z) * list Z;
  generate_novel_sentences :
    network -> Z -> Z -> vec -> list (list Z) * list Z;
  (** [dt.now().strftime("%Y%m%d%H%M%S")] *)
  now : string;
}.

Record pstate := {
  trace : list event;
  files : gmap string file_content;
  sessions : nat;
  draws : nat;
}.

Definition M (A : Type) : Type := pstate -> outcome A * pstate.

#[global] Instance M_ret : MRet M := fun A a st => (Return a, st).
#[global] Instance M_bind : MBind M := fun A B f m st =>
  match m st with
  | (Return a, st') => f a st'
  | (Raise e, st') => (Raise e, st')
  | (SystemExit c, st') => (SystemExit c, st')
  end.

Definition lift {A} (o : outcome A) : M A := fun st => (o, st).

Definition emit (e : event) : M unit := fun st =>
  (Return tt,
   {| trace := trace st ++ [e]; files := files st;
      sessions := sessions st; draws := draws st |}).

Definition fresh_draw : M nat := fun st =>
  (Return (draws st),
   {| trace := trace st; files := files st;
      sessions := sessions st; draws := S (draws st) |}).

Definition read_file (path : string) : M (option file_content) := fun st =>
  (Return (files st !! path), st).

(** [with open(path, 'w') as f: ...] and [pickle.dump]: the file holds the
    new content once the block is left.  The directory of [path] is taken
    to exist and to be writable: [main.py] never creates [output/], and
    [open] raising there is outside what is modelled, so what is proved of
    a write is what holds once the block has been left. *)
Definition write_file (path : string) (c : file_content) : M unit := fun st =>
  (Return tt,
   {| trace := trace st; files := <[path := c]> (files st);
      sessions := sessions st; draws := draws st |}).

Definition update_files (f : gmap string file_content ->
                             gmap string file_content) : M unit := fun st =>
  (Return tt,
   {| trace := trace st; files := f (files st);
      sessions := sessions st; draws := draws st |}).

Definition when_ (b : bool) (m : M unit) : M unit :=
  if b then m else mret tt.

(** [logger.info], [logger.debug].  The arguments of [str.format] are
    evaluated before the call whatever the logging level is; only integer
    arguments are kept in the event. *)
Definition logger_info (message : string) (args : list Z) : M unit :=
  emit (Log "INFO" message args).
Definition logger_debug (message : string) (args : list Z) : M unit :=
  emit (Log "DEBUG" message args).

(** [sys.exit(code)] *)
Definition sys_exit {A} (code : Z) : M A := lift (SystemExit code).

(** [get_tensorflow_session()], lines 221-227: a new session each call. *)
Definition get_tensorflow_session : M nat := fun st =>
  (Return (sessions st),
   {| trace := trace st ++ [SessionOpen (sessions st)]; files := files st;
      sessions := S (sessions st); draws := draws st |}).

(** [sess.close()] *)
Definition session_close (sess : nat) : M unit := emit (SessionClose sess).

(** [np.random.uniform(low=-0.05, high=0.05, size=(rows, cols))] *)
Definition np_random_uniform (W : world) (rows cols : Z) : M matrix :=
  k ← fresh_draw;
  emit (RandomUniform rows cols);;
  if decide (rows < 0 ∨ cols < 0) then lift (Raise ValueError)
  else mret (random_uniform W k rows cols).

(** [random.randint(a, b)]: an integer of [[a, b]], [ValueError] when the
    interval is empty. *)
Definition randint (W : world) (a b : Z) : M Z :=
  k ← fresh_draw;
  emit (Randint a b);;
  if decide (b < a) then lift (Raise ValueError)
  else mret (a + random_integer W k mod (b - a + 1)).

(** [a.shape] of a two-dimensional array *)
Definition shape2 {A} (a : list (list A)) : list Z :=
  [Z.of_nat (length a); Z.of_nat (from_option length 0%nat (head a))].

(** The state a run starts from. *)
Definition initial (fs : gmap string file_content) : pstate :=
  {| trace := []; files := fs; sessions := 0; draws := 0 |}.

(** ** [get_data], lines 18-32 *)

Record dataset := {
  d_num_labels : Z;
  d_max_sequence_length : Z;
  d_vocab_size : Z;
  d_sos_index : Z;
  d_eos_index : Z;
  d_padded_sequences : list (list Z);
  d_one_hot_labels : list (list Z);
  d_text_sequence_lengths : list Z;
  d_label_sequences : list (list Z);
  d_data_size : Z;
  d_word_index : list (string * Z);
  d_actual_sequences : list (list Z);
}.

Definition get_data (W : world) (text_file_path : string) (vocab_size : Z)
    (label_file_path : string) : M dataset :=
  emit (GetTextSequences text_file_path vocab_size);;
  let t := get_text_sequences W text_file_path vocab_size in
  logger_debug "text_sequence_lengths: {}"
    [Z.of_nat (length (text_sequence_lengths t))];;
  logger_debug "padded_sequences: {}" (shape2 (padded_sequences t));;
  sos_index ← lift (of_option KeyError
                      (pydict_get (word_index t) (sos_token (cfg W))));
  eos_index ← lift (of_option KeyError
                      (pydict_get (word_index t) (eos_token (cfg W))));
  let data_size := Z.of_nat (length (padded_sequences t)) in
  emit (GetLabels label_file_path);;
  let l := get_labels W label_file_path in
  logger_debug "one_hot_labels.shape: {}" (shape2 (one_hot_labels l));;
  mret {| d_num_labels := num_labels l;
          d_max_sequence_length := max_sequence_length t;
          d_vocab_size := vocab_size;
          d_sos_index := sos_index;
          d_eos_index := eos_index;
          d_padded_sequences := padded_sequences t;
          d_one_hot_labels := one_hot_labels l;
          d_text_sequence_lengths := text_sequence_lengths t;
          d_label_sequences := label_sequences l;
          d_data_size := data_size;
          d_word_index := word_index t;
          d_actual_sequences := actual_sequences t |}.

(** ** [get_average_label_embeddings], lines 35-56 *)

Definition get_average_label_embeddings (W : world) (data_size : Z)
    (label_sequences : list (list Z)) : M (list (Z * vec)) :=
  emit (PickleLoad (all_style_embeddings_path (cfg W)));;
  pickle_file ← read_file (all_style_embeddings_path (cfg W));
  style_embeddings ←
    match pickle_file with
    | None => lift (Raise FileNotFoundError)
    | Some (StyleEmbeddings rows) => mret rows
    | Some _ => lift (Raise ValueError)
    end;
  label_embedding_map ←
    lift (label_embedding_loop (cfg W) data_size label_sequences
            style_embeddings);
  emit (PickleDump (label_mapped_style_embeddings_path (cfg W)));;
  write_file (label_mapped_style_embeddings_path (cfg W))
    (LabelEmbeddingMap label_embedding_map);;
  logger_debug "Pickled label mapped style embeddings" [];;
  lift (average_loop label_embedding_map).

(** ** [tf.keras.preprocessing.sequence.pad_sequences] with
    [padding='post', truncating='post']: every row is cut to [maxlen] and
    filled up to [maxlen] with [value]. *)
Definition pad_sequences (sequences : list (list Z)) (maxlen value : Z)
    : outcome (list (list Z)) :=
  if decide (maxlen < 0) then Raise ValueError
  else Return ((fun s =>
                  let trunc := Py.slice_to s maxlen in
                  trunc ++ replicate (Z.to_nat maxlen - length trunc) value)
                 <$> sequences).

(** [{v: k for k, v in word_index.items()}] *)
Definition invert_index (word_index : list (string * Z)) : list (Z * string) :=
  foldl (fun d '(k, v) => pydict_set d v k) [] word_index.

(** [" ".join(x)] *)
Definition join_words (x : list string) : string := String.concat " " x.

(** ** [flush_ground_truth_sentences], lines 59-78 *)

Definition flush_ground_truth_sentences (W : world)
    (actual_sequences : list (list Z)) (start_index final_index : Z)
    (max_sequence_length : Z) (word_index : list (string * Z))
    (inverse_word_index : list (Z * string)) (timestamped_file_suffix : string)
    : M (list (list string)) :=
  let actual_sequences := Py.slice actual_sequences start_index final_index in
  eos ← lift (of_option KeyError (pydict_get word_index (eos_token (cfg W))));
  actual_sequences ←
    lift (pad_sequences actual_sequences max_sequence_length eos);
  let actual_word_lists :=
    (fun x => generate_words_from_indices W x inverse_word_index)
      <$> actual_sequences in
  let actual_sentences := join_words <$> actual_word_lists in
  let output_file_path :=
    "output/actual_sentences_" +:+ timestamped_file_suffix +:+ ".txt" in
  emit (WriteLines output_file_path (length actual_sentences));;
  write_file output_file_path (TextLines actual_sentences);;
  mret actual_word_lists.

(** ** [execute_post_inference_operations], lines 81-105 *)

(** Lines 86-90: trim every generated sequence to its final length, then
    pad or cut it to [max_sequence_length]. *)
Definition trim_and_pad (W : world) (word_index : list (string * Z))
    (generated_sequences : list (list Z)) (final_sequence_lengths : list Z)
    (max_sequence_length : Z) : outcome (list (list Z)) :=
  let trimmed_generated_sequences :=
    (fun '(x, y) => Py.slice_to x y)
      <$> zip generated_sequences final_sequence_lengths in
  eos ← of_option KeyError (pydict_get word_index (eos_token (cfg W)));
  pad_sequences trimmed_generated_sequences max_sequence_length eos.

Definition execute_post_inference_operations (W : world)
    (word_index : list (string * Z)) (actual_word_lists : list (list string))
    (generated_sequences : list (list Z)) (final_sequence_lengths : list Z)
    (max_sequence_length : Z) (inverse_word_index : list (Z * string))
    (timestamped_file_suffix mode : string) : M unit :=
  shortest ← lift (Py.min_ final_sequence_lengths);
  logger_debug "Minimum generated sentence length: {}" [shortest];;
  generated_sequences ←
    lift (trim_and_pad W word_index generated_sequences final_sequence_lengths
            max_sequence_length);
  let generated_word_lists :=
    (fun x => generate_words_from_indices W x inverse_word_index)
      <$> generated_sequences in
  emit (CorpusBleu (length actual_word_lists) (length generated_word_lists));;
  let bleu_scores :=
    get_corpus_bleu_scores W ((fun x => [x]) <$> actual_word_lists)
      generated_word_lists in
  logger_info "bleu_scores: {}" [];;
  let generated_sentences := join_words <$> generated_word_lists in
  let output_file_path :=
    "output/generated_" +:+ mode +:+ "_" +:+ timestamped_file_suffix
      +:+ ".txt" in
  emit (WriteLines output_file_path (length generated_sentences));;
  write_file output_file_path (TextLines generated_sentences).

(** ** [get_word_embeddings], lines 108-123 *)

Definition get_word_embeddings (W : world) (vocab_size : Z)
    (word_index : list (string * Z))
    (use_pretrained_embeddings train_model : bool) : M (matrix * matrix) :=
  encoder_embedding_matrix ←
    np_random_uniform W vocab_size (embedding_size (cfg W));
  logger_debug "encoder_embedding_matrix: {}"
    [vocab_size; embedding_size (cfg W)];;
  decoder_embedding_matrix ←
    np_random_uniform W vocab_size (embedding_size (cfg W));
  logger_debug "decoder_embedding_matrix: {}"
    [vocab_size; embedding_size (cfg W)];;
  if train_model && use_pretrained_embeddings then
    logger_info "Loading pretrained embeddings" [];;
    emit (AddWordVectors (word_vector_path (cfg W)));;
    mret (add_word_vectors_to_embeddings W word_index
            (word_vector_path (cfg W)) encoder_embedding_matrix
            decoder_embedding_matrix vocab_size)
  else
    mret (encoder_embedding_matrix, decoder_embedding_matrix).

(** ** The command line, lines 127-140

    [invocation] is the command line as [argparse] sees it once it has
    split it into options: which [store_true] flags occur and which valued
    options are given (with their value already converted).  The lexical
    layer of [argparse] is not modelled: an [invocation] stands for a
    command line made of the ten declared options only, each spelled in
    full and with a value of its type, and without [-h]/[--help]; the
    exits of [argparse] on other command lines (status 0 after printing
    the help, status 2 for an unknown or ambiguous option or a value that
    is not an integer) have no [invocation]. *)

Record invocation := {
  given_dev_mode : bool;
  given_train_model : bool;
  given_infer_sequences : bool;
  given_generate_novel_text : bool;
  given_use_pretrained_embeddings : bool;
  given_training_epochs : option Z;
  given_vocab_size : option Z;
  given_text_file_path : option string;
  given_label_file_path : option string;
  given_logging_level : option string;
}.

(** [vars(args_namespace)] *)
Record command_line_args := {
  dev_mode : bool;
  train_model : bool;
  infer_sequences : bool;
  generate_novel_text : bool;
  use_pretrained_embeddings : bool;
  training_epochs : Z;
  vocab_size : Z;
  text_file_path : string;
  label_file_path : string;
  logging_level : string;
}.

(** [parser.parse_args(argv)]: defaults for the optional arguments; a
    missing [required=True] argument makes [argparse] print its usage and
    call [sys.exit(2)]. *)
Definition parse_args (argv : invocation) : outcome command_line_args :=
  match given_text_file_path argv, given_label_file_path argv with
  | Some text, Some label =>
      Return {| dev_mode := given_dev_mode argv;
                train_model := given_train_model argv;
                infer_sequences := given_infer_sequences argv;
                generate_novel_text := given_generate_novel_text argv;
                use_pretrained_embeddings :=
                  given_use_pretrained_embeddings argv;
                training_epochs := default 10 (given_training_epochs argv);
                vocab_size := default 1000 (given_vocab_size argv);
                text_file_path := text;
                label_file_path := label;
                logging_level := default "INFO" (given_logging_level argv) |}
  | _, _ => SystemExit 2
  end.

(** ** [main], lines 126-218 *)

(** Modelled from the spec: [AdversarialAutoencoder.train]; the model class
    is not among the sources.  Training runs in the session it is given
    and persists what it has learnt; the BLEU scorer is "used only for
    post-hoc evaluation, never inside the training loop".  What training
    leaves on disk is [train] of the world. *)
Definition network_train (W : world) (net : network) (sess : nat)
    (data_size training_epochs : Z) : M unit :=
  emit (Train sess data_size training_epochs);;
  update_files (fun fs => train W net fs data_size training_epochs).

(** Modelled from the spec: [AdversarialAutoencoder.infer]; the model class
    is not among the sources.  Inference reconstructs the samples of the
    given range and returns the generated token ids with "an effective
    length per sequence". *)
Definition network_infer (W : world) (net : network) (sess : nat)
    (offset samples_size : Z) : M (list (list Z) * list Z) :=
  emit (Infer sess offset samples_size);;
  mret (infer W net offset samples_size).

(** Modelled from the spec: [AdversarialAutoencoder.generate_novel_sentences];
    the model class is not among the sources.  Generation decodes the
    samples of the given range with the style sub-vector replaced by "a
    caller-supplied style embedding" and returns what inference returns. *)
Definition network_generate_novel_sentences (W : world) (net : network)
    (sess : nat) (offset samples_size : Z) (style_embedding : vec)
    : M (list (list Z) * list Z) :=
  emit (GenerateNovelSentences sess offset samples_size style_embedding);;
  mret (generate_novel_sentences W net offset samples_size style_embedding).

(** Line 179, [samples_size]. *)
Definition sampling_range_size (W : world) (data_size : Z) : outcome Z :=
  r ← Py.mod_ data_size (batch_size (cfg W));
  mret (data_size - r).

(** Lines 204-218. *)
Definition generate_novel_text_branch (W : world) (d : dataset)
    (net : network) (offset samples_size : Z)
    (actual_word_lists : list (list string))
    (inverse_word_index : list (Z * string))
    (timestamped_file_suffix : string) : M unit :=
  logger_info "Generating novel text ..." [];;
  random_style_choice ← randint W 1 (d_num_labels d);
  logger_debug "Style chosen: {}" [random_style_choice];;
  average_label_embeddings ←
    get_average_label_embeddings W (d_data_size d) (d_label_sequences d);
  style_embedding ←
    lift (of_option KeyError
            (pydict_get average_label_embeddings random_style_choice));
  sess ← get_tensorflow_session;
  '(generated_sequences, final_sequence_lengths) ←
    network_generate_novel_sentences W net sess offset samples_size
      style_embedding;
  execute_post_inference_operations W (d_word_index d) actual_word_lists
    generated_sequences final_sequence_lengths (d_max_sequence_length d)
    inverse_word_index timestamped_file_suffix "novel_sentences";;
  logger_info "Generation complete!" [].

(** Lines 191-201. *)
Definition infer_sequences_branch (W : world) (d : dataset)
    (net : network) (offset samples_size : Z)
    (actual_word_lists : list (list string))
    (inverse_word_index : list (Z * string))
    (timestamped_file_suffix : string) : M unit :=
  logger_info "Inferring test samples ..." [];;
  sess ← get_tensorflow_session;
  '(generated_sequences, final_sequence_lengths) ←
    network_infer W net sess offset samples_size;
  session_close sess;;
  execute_post_inference_operations W (d_word_index d) actual_word_lists
    generated_sequences final_sequence_lengths (d_max_sequence_length d)
    inverse_word_index timestamped_file_suffix "reconstructed_sentences";;
  logger_info "Inference complete!" [].

(** Lines 171-176. *)
Definition train_model_branch (W : world) (d : dataset) (net : network)
    (training_epochs : Z) : M unit :=
  logger_info "Training model ..." [];;
  sess ← get_tensorflow_session;
  network_train W net sess (d_data_size d) training_epochs;;
  session_close sess;;
  logger_info "Training complete!" [].

Definition main (W : world) (argv : invocation) : M unit :=
  command_line_args ← lift (parse_args argv);
  emit (SetupLogger (logger_name (cfg W)) (logging_level command_line_args));;
  (if negb (train_model command_line_args
            || infer_sequences command_line_args
            || generate_novel_text command_line_args)
   then logger_info "Nothing to do. Exiting ..." [];; sys_exit 0
   else mret tt);;
  logger_info "Reading data ..." [];;
  d ← get_data W (text_file_path command_line_args)
        (vocab_size command_line_args) (label_file_path command_line_args);
  '(encoder_embedding_matrix, decoder_embedding_matrix) ←
    get_word_embeddings W (d_vocab_size d) (d_word_index d)
      (use_pretrained_embeddings command_line_args)
      (train_model command_line_args);
  logger_info "Building model architecture ..." [];;
  let net :=
    {| net_num_labels := d_num_labels d;
       net_max_sequence_length := d_max_sequence_length d;
       net_vocab_size := d_vocab_size d;
       net_sos_index := d_sos_index d;
       net_eos_index := d_eos_index d;
       net_encoder_embedding_matrix := encoder_embedding_matrix;
       net_decoder_embedding_matrix := decoder_embedding_matrix;
       net_padded_sequences := d_padded_sequences d;
       net_one_hot_labels := d_one_hot_labels d;
       net_text_sequence_lengths := d_text_sequence_lengths d;
       net_label_sequences := d_label_sequences d |} in
  emit BuildModel;;
  when_ (train_model command_line_args)
    (train_model_branch W d net (training_epochs command_line_args));;
  when_ (infer_sequences command_line_args
         || generate_novel_text command_line_args)
    (samples_size ← lift (sampling_range_size W (d_data_size d));
     let offset := 0 in
     logger_debug "Sampling range: {}-{}" [offset; offset + samples_size];;
     let inverse_word_index := invert_index (d_word_index d) in
     let timestamped_file_suffix := now W in
     actual_word_lists ←
       flush_ground_truth_sentences W (d_actual_sequences d) offset
         (offset + samples_size) (d_max_sequence_length d) (d_word_index d)
         inverse_word_index timestamped_file_suffix;
     when_ (infer_sequences command_line_args)
       (infer_sequences_branch W d net offset samples_size actual_word_lists
          inverse_word_index timestamped_file_suffix);;
     when_ (generate_novel_text command_line_args)
       (generate_novel_text_branch W d net offset samples_size
          actual_word_lists inverse_word_index timestamped_file_suffix)).


(** ** [tsne_interface.generate_plot_coordinates], lines 12-34 *)

(** Lines 16-18, the body of the outer loop: [for label in d] visits the
    keys in insertion order and [d[label]] reads the group of each. *)
Definition collect_step (label_mapped_embeddings : list (Z * list vec))
    (acc : list vec * list Z) (label : Z) : outcome (list vec * list Z) :=
  let '(embeddings, markers) := acc in
  let markers := markers ++ [Z.of_nat (length embeddings)] in
  group ← of_option KeyError (pydict_get label_mapped_embeddings label);
  mret (foldl (fun acc embedding => acc ++ [embedding]) embeddings group,
        markers).

(** Lines 13-19. *)
Definition collect_embeddings
    (label_mapped_embeddings : list (Z * list vec))
    : outcome (list vec * list Z) :=
  '(embeddings, markers) ←
    for_each (collect_step label_mapped_embeddings)
      (pydict_keys label_mapped_embeddings) ([], []);
  mret (embeddings, markers ++ [Z.of_nat (length embeddings)]).

(** [embeddings.shape[1]] after [np.asarray]: the common row length; an
    empty or ragged list has no second dimension. *)
Definition shape_1 (embeddings : list vec) : outcome Z :=
  match embeddings with
  | [] => Raise IndexError
  | r :: rs =>
      if forallb (fun x => Nat.eqb (length x) (length r)) rs
      then Return (Z.of_nat (length r))
      else Raise IndexError
  end.

(** [fit_transform] is [TSNE(n_components=2).fit_transform]: the
    coordinates it returns or the exception it raises (scikit-learn
    rejects, for one, a perplexity that is not below the number of
    samples).  It is called only when [embeddings.shape[1] != 2]. *)
Definition generate_plot_coordinates
    (fit_transform : list vec -> outcome (list vec))
    (label_mapped_embeddings : list (Z * list vec))
    (coordinates_path : string) : M unit :=
  '(embeddings, markers) ← lift (collect_embeddings label_mapped_embeddings);
  logger_debug "markers: {}" markers;;
  logger_info "Extracted individual embeddings of shape {}"
    [Z.of_nat (length embeddings)];;
  logger_info "Learning plot co-ordinates" [];;
  dim ← lift (shape_1 embeddings);
  coordinates ←
    (if decide (dim ≠ 2) then lift (fit_transform embeddings)
     else mret embeddings);
  logger_debug "coordinates.shape: {}" (shape2 coordinates);;
  emit (PickleDump coordinates_path);;
  write_file coordinates_path (Coordinates coordinates markers);;
  logger_info "Dumped T-SNE co-ordinates" [].

(** ** A small world to run the driver in *)

Module Demo.

Definition demo_cfg : config :=
  {| logger_name := "root"; sos_token := "<sos>"; eos_token := "<eos>";
     embedding_size := 2; word_vector_path := "vectors.txt";
     all_style_embeddings_path := "all_style_embeddings.pkl";
     label_mapped_style_embeddings_path := "label_mapped.pkl";
     batch_size := 4 |}.

Definition demo_words : list (string * Z) :=
  [("<sos>", 1); ("<eos>", 2); ("good", 3); ("bad", 4); ("food", 5)].

(** Ten sentences, labelled 1 or 2. *)
Definition demo_text : text_data :=
  {| padded_sequences := replicate 10 [3; 5; 2];
     text_sequence_lengths := replicate 10 3;
     word_index := demo_words;
     max_sequence_length := 3;
     actual_sequences := replicate 10 [3; 5] |}.

Definition demo_labels : label_data :=
  {| one_hot_labels := replicate 10 [1; 0];
     num_labels := 2;
     label_sequences :=
       [[1]; [2]; [1]; [1]; [2]; [2]; [2]; [1]; [1]; [2]] |}.

Definition demo_style_embeddings : list vec :=
  (fun z => [inject_Z z; 1%Q]) <$> Py.range 8.

Definition demo_words_from_indices (x : list Z) (inv : list (Z * string))
    : list string :=
  omap (pydict_get inv) x.

Definition demo_world : world :=
  {| cfg := demo_cfg;
     get_text_sequences := fun _ _ => demo_text;
     get_labels := fun _ => demo_labels;
     generate_words_from_indices := demo_words_from_indices;
     get_corpus_bleu_scores := fun _ _ => [1%Q];
     add_word_vectors_to_embeddings := fun _ _ e d _ => (e, d);
     random_uniform := fun _ _ _ => [];
     random_integer := fun k => Z.of_nat k;
     train := fun _ fs _ _ =>
       <["all_style_embeddings.pkl" :=
           StyleEmbeddings demo_style_embeddings]> fs;
     infer := fun _ _ n => (replicate (Z.to_nat n) [4; 5; 2; 2],
                            replicate (Z.to_nat n) 2);
     generate_novel_sentences := fun _ _ n _ =>
       (replicate (Z.to_nat n) [3; 5; 2; 2], replicate (Z.to_nat n) 2);
     now := "20180101000000" |}.

(** The state after an earlier training run. *)
Definition demo_trained : pstate :=
  initial {[ "all_style_embeddings.pkl" :=
               StyleEmbeddings demo_style_embeddings ]}.

(** The same data, but every example kept carries label 1 while
    [num_labels] is 2 and the random choice falls on 2. *)
Definition lopsided_world : world :=
  {| cfg := demo_cfg;
     get_text_sequences := fun _ _ => demo_text;
     get_labels := fun _ =>
       {| one_hot_labels := replicate 10 [1; 0];
          num_labels := 2;
          label_sequences := replicate 8 [1] ++ [[2]; [2]] |};
     generate_words_from_indices := demo_words_from_indices;
     get_corpus_bleu_scores := fun _ _ => [1%Q];
     add_word_vectors_to_embeddings := fun _ _ e d _ => (e, d);
     random_uniform := fun _ _ _ => [];
     random_integer := fun _ => 1;
     train := fun _ fs _ _ => fs;
     infer := fun _ _ n => ([], []);
     generate_novel_sentences := fun _ _ n _ => ([], []);
     now := "20180101000000" |}.

Definition demo_argv (train infer generate : bool) : invocation :=
  {| given_dev_mode := false;
     given_train_model := train;
     given_infer_sequences := infer;
     given_generate_novel_text := generate;
     given_use_pretrained_embeddings := false;
     given_training_epochs := None;
     given_vocab_size := None;
     given_text_file_path := Some "text.txt";
     given_label_file_path := Some "labels.txt";
     given_logging_level := None |}.

(** What [get_data] returns in the demo world. *)
Definition demo_dataset : dataset :=
  {| d_num_labels := 2;
     d_max_sequence_length := 3;
     d_vocab_size := 1000;
     d_sos_index := 1;
     d_eos_index := 2;
     d_padded_sequences := padded_sequences demo_text;
     d_one_hot_labels := one_hot_labels demo_labels;
     d_text_sequence_lengths := text_sequence_lengths demo_text;
     d_label_sequences := label_sequences demo_labels;
     d_data_size := 10;
     d_word_index := demo_words;
     d_actual_sequences := actual_sequences demo_text |}.

Definition demo_network : network :=
  {| net_num_labels := 2;
     net_max_sequence_length := 3;
     net_vocab_size := 1000;
     net_sos_index := 1;
     net_eos_index := 2;
     net_encoder_embedding_matrix := [];
     net_decoder_embedding_matrix := [];
     net_padded_sequences := padded_sequences demo_text;
     net_one_hot_labels := one_hot_labels demo_labels;
     net_text_sequence_lengths := text_sequence_lengths demo_text;
     net_label_sequences := label_sequences demo_labels |}.

(** A command line without the text file path. *)
Definition demo_argv_no_text : invocation :=
  {| given_dev_mode := false;
     given_train_model := true;
     given_infer_sequences := false;
     given_generate_novel_text := false;
     given_use_pretrained_embeddings := false;
     given_training_epochs := None;
     given_vocab_size := None;
     given_text_file_path := None;
     given_label_file_path := Some "labels.txt";
     given_logging_level := None |}.

(** A label-to-embeddings map with an empty group in the middle. *)
Definition demo_label_map : list (Z * list vec) :=
  [(1, [[1%Q]; [2%Q]]); (5, []); (2, [[3%Q]])].

(** The same with embeddings that are already two-dimensional. *)
Definition demo_plane_map : list (Z * list vec) :=
  [(1, [[1%Q; 2%Q]; [3%Q; 4%Q]]); (5, []); (2, [[5%Q; 6%Q]])].

End Demo.

(** ** Vocabulary of the statements *)

(** The label of example [i]: [label_sequences[i][0]]. *)
Definition label_at (label_sequences : list (list Z)) (i : nat) : option Z :=
  label_sequences !! i ≫= head.

(** The number of examples kept: [data_size - data_size % batch_size]. *)
Definition truncated_size (c : config) (data_size : Z) : nat :=
  Z.to_nat (data_size - data_size mod batch_size c).

(** The style embeddings of the examples among the first [n] that carry
    label [l], in the order of the examples. *)
Definition labelled_embeddings (label_sequences : list (list Z))
    (style_embeddings : list vec) (n : nat) (l : Z) : list vec :=
  omap (fun i => if decide (label_at label_sequences i = Some l)
                 then style_embeddings !! i else None) (seq 0 n).

(** What one iteration does to the map when nothing raises. *)
Definition add_to_group (m : list (Z * list vec)) (l : Z) (e : vec)
    : list (Z * list vec) :=
  pydict_set m l (default [] (pydict_get m l) ++ [e]).

(** The events a computation adds to the trace of the state it starts in. *)
Definition events_of {A} (m : M A) (st : pstate) : list event :=
  drop (length (trace st)) (trace (m st).2).

(** The same command line with the [--use-pretrained-embeddings] flag set
    to [b]. *)
Definition with_pretrained (b : bool) (argv : invocation) : invocation :=
  {| given_dev_mode := given_dev_mode argv;
     given_train_model := given_train_model argv;
     given_infer_sequences := given_infer_sequences argv;
     given_generate_novel_text := given_generate_novel_text argv;
     given_use_pretrained_embeddings := b;
     given_training_epochs := given_training_epochs argv;
     given_vocab_size := given_vocab_size argv;
     given_text_file_path := given_text_file_path argv;
     given_label_file_path := given_label_file_path argv;
     given_logging_level := given_logging_level argv |}.

(** The sessions opened and not closed in a trace, oldest first. *)
Definition unclosed_sessions (evs : list event) : list nat :=
  foldl (fun opened e =>
           match e with
           | SessionOpen s => opened ++ [s]
           | SessionClose s => filter (fun x => x ≠ s) opened
           | _ => opened
           end) [] evs.

(** Every call of the BLEU scorer in the trace comes after a call of
    [network.infer] or [network.generate_novel_sentences]; [seen] tells
    whether such a call has already happened. *)
Fixpoint bleu_follows_inference (seen : bool) (evs : list event) : bool :=
  match evs with
  | [] => true
  | Infer _ _ _ :: r | GenerateNovelSentences _ _ _ _ :: r =>
      bleu_follows_inference true r
  | CorpusBleu _ _ :: r => seen && bleu_follows_inference seen r
  | _ :: r => bleu_follows_inference seen r
  end.

Definition is_bleu (e : event) : bool :=
  match e with CorpusBleu _ _ => true | _ => false end.

(** An event that opens a file for writing. *)
Definition is_write (e : event) : bool :=
  match e with WriteLines _ _ | PickleDump _ => true | _ => false end.

(** An event that reads the data or builds the model. *)
Definition reads_data_or_builds_model (e : event) : bool :=
  match e with
  | GetTextSequences _ _ | GetLabels _ | RandomUniform _ _
  | AddWordVectors _ | BuildModel | PickleLoad _ => true
  | _ => false
  end.

(** Where the block of the [i]-th group starts once the groups are laid
    end to end: the number of embeddings in the groups before it. *)
Definition marker_at (groups : list (list vec)) (i : nat) : Z :=
  Z.of_nat (length (concat (take i groups))).

(** The sum of column [j] of [rows], starting from [a]. *)
Definition column_sum (j : nat) (a : Q) (rows : list vec) : Q :=
  foldl (fun s row => (s + default 0%Q (row !! j))%Q) a rows.

(** The sum of column [j] of [rows]. *)
Definition column_total (j : nat) (rows : list vec) : Q :=
  foldr (fun row s => (default 0%Q (row !! j) + s)%Q) 0%Q rows.

(** The element-wise mean of [rows] of dimension [dim]: for every [j]
    below [dim], entry [j] is the sum of column [j] divided by the number
    of rows. *)
Definition elementwise_mean (dim : nat) (rows : list vec) : vec :=
  (fun j => (column_total j rows / inject_Z (Z.of_nat (length rows)))%Q)
    <$> seq 0 dim.

(** An inference or generation call is made on the whole sampling range
    [0 .. n]. *)
Definition samples_full_batches (n : Z) (e : event) : Prop :=
  match e with
  | Infer _ offset samples_size
  | GenerateNovelSentences _ offset samples_size _ =>
      offset = 0 ∧ samples_size = n
  | _ => True
  end.

(** The number of embeddings held by a label-to-embeddings map. *)
Definition total_embeddings (m : list (Z * list vec)) : nat :=
  sum_list ((fun p => length p.2) <$> m).

(** What holds of the label-to-embeddings map after the first [k]
    examples. *)
Definition grouped (ls : list (list Z)) (se : list vec) (k : nat)
    (m : list (Z * list vec)) : Prop :=
  NoDup (pydict_keys m) ∧
  (∀ l, l ∈ pydict_keys m ↔ ∃ i, (i < k)%nat ∧ label_at ls i = Some l) ∧
  (∀ l g, pydict_get m l = Some g → g = labelled_embeddings ls se k l).

(** ** Further vocabulary *)

(** The labels of the first [n] examples, in order. *)
Definition labels_of_prefix (label_sequences : list (list Z)) (n : nat)
    : list Z :=
  omap (label_at label_sequences) (seq 0 n).

(** The distinct elements of a list in the order in which they first
    occur. *)
Definition first_occurrences (l : list Z) : list Z :=
  foldl (fun acc x => if decide (x ∈ acc) then acc else acc ++ [x]) [] l.

(** Sessions follow one another: a session is opened only when none is
    open, the session closed is the one that is open, and every call of
    the network runs in the session that is open.  [opened] is the open
    session, if any. *)
Fixpoint one_session_at_a_time (opened : option nat) (evs : list event)
    : bool :=
  match evs with
  | [] => true
  | SessionOpen s :: r =>
      match opened with
      | None => one_session_at_a_time (Some s) r
      | Some _ => false
      end
  | SessionClose s :: r =>
      match opened with
      | Some s' => Nat.eqb s s' && one_session_at_a_time None r
      | None => false
      end
  | Train s _ _ :: r | Infer s _ _ :: r | GenerateNovelSentences s _ _ _ :: r =>
      match opened with
      | Some s' => Nat.eqb s s' && one_session_at_a_time opened r
      | None => false
      end
  | _ :: r => one_session_at_a_time opened r
  end.

(** The stage of a run an event belongs to. *)
Definition phase (e : event) : option nat :=
  match e with
  | GetTextSequences _ _ => Some 1%nat
  | GetLabels _ => Some 2%nat
  | BuildModel => Some 3%nat
  | Train _ _ _ => Some 4%nat
  | Infer _ _ _ => Some 5%nat
  | GenerateNovelSentences _ _ _ _ => Some 6%nat
  | _ => None
  end.

(** The stages occur in increasing order, each at most once. *)
Fixpoint phases_increase (last : nat) (evs : list event) : bool :=
  match evs with
  | [] => true
  | e :: r =>
      match phase e with
      | Some p => Nat.ltb last p && phases_increase p r
      | None => phases_increase last r
      end
  end.

(** No session is opened before the model is built. *)
Fixpoint model_built_first (built : bool) (evs : list event) : bool :=
  match evs with
  | [] => true
  | BuildModel :: r => model_built_first true r
  | SessionOpen _ :: r => built && model_built_first built r
  | _ :: r => model_built_first built r
  end.

(** The status a run exits with, if it exits. *)
Definition exit_status {A} (o : outcome A) : option Z :=
  match o with
  | SystemExit code => Some code
  | _ => None
  end.

(** The exit status the command line calls for. *)
Definition expected_exit (argv : invocation) : option Z :=
  match given_text_file_path argv, given_label_file_path argv with
  | Some _, Some _ =>
      if given_train_model argv || given_infer_sequences argv
         || given_generate_novel_text argv
      then None else Some 0
  | _, _ => Some 2
  end.

(** A call of [network.generate_novel_sentences]. *)
Definition is_generation (e : event) : bool :=
  match e with GenerateNovelSentences _ _ _ _ => true | _ => false end.

(** ** Further data for the small world *)

Module DemoMore.
Import Demo.
(** The averages of the demo data. *)
Definition demo_averages : list (Z * vec) :=
  [(1, [12 # 4; 4 # 4]%Q); (2, [16 # 4; 4 # 4]%Q)].

(** Stored style embeddings that stop after five examples. *)
Definition demo_short : pstate :=
  initial {[ "all_style_embeddings.pkl" :=
               StyleEmbeddings (take 5 demo_style_embeddings) ]}.

(** Stored style embeddings with one more row than the examples kept. *)
Definition demo_longer : pstate :=
  initial {[ "all_style_embeddings.pkl" :=
               StyleEmbeddings (demo_style_embeddings ++ [[9%Q; 9%Q]]) ]}.
End DemoMore.

(** * Properties *)

(** ** Dictionaries *)

Section PyDictFacts.
Context {K V : Type} `{EqDecision K}.
Implicit Types (d : list (K * V)) (k : K) (v : V).

Lemma pydict_get_set_eq d k v : pydict_get (pydict_set d k v) k = Some v.
Proof.
  induction d as [|[k' v'] d IH]; simpl.
  - by rewrite decide_True.
  - destruct (decide (k' = k)) as [->|Hne]; simpl.
    + by rewrite decide_True.
    + by rewrite decide_False.
Qed.

Lemma pydict_get_set_ne d k k' v :
  k ≠ k' → pydict_get (pydict_set d k v) k' = pydict_get d k'.
Proof.
  intros Hne. induction d as [|[k0 v0] d IH]; simpl.
  - by rewrite decide_False.
  - destruct (decide (k0 = k)) as [->|Hne0]; simpl.
    + by rewrite !decide_False.
    + by rewrite IH.
Qed.

Lemma pydict_get_None d k : pydict_get d k = None ↔ k ∉ pydict_keys d.
Proof.
  unfold pydict_keys. induction d as [|[k' v'] d IH]; simpl.
  - split; [intros _; apply not_elem_of_nil | done].
  - rewrite not_elem_of_cons. destruct (decide (k' = k)) as [->|Hne].
    + split; [done | intros [? _]; done].
    + rewrite IH. split; [intros ?; split; [congruence | done] | tauto].
Qed.

Lemma pydict_get_Some_keys d k : is_Some (pydict_get d k) ↔ k ∈ pydict_keys d.
Proof.
  rewrite <- not_eq_None_Some, pydict_get_None.
  destruct (decide (k ∈ pydict_keys d)); tauto.
Qed.

Lemma pydict_mem_true d k : pydict_mem d k = true ↔ k ∈ pydict_keys d.
Proof.
  unfold pydict_mem. rewrite bool_decide_eq_true. apply pydict_get_Some_keys.
Qed.

Lemma pydict_set_fresh d k v :
  k ∉ pydict_keys d → pydict_set d k v = d ++ [(k, v)].
Proof.
  unfold pydict_keys. induction d as [|[k' v'] d IH]; simpl; [done|].
  rewrite not_elem_of_cons. intros [Hne Hd].
  rewrite decide_False by congruence. by rewrite IH.
Qed.

Lemma pydict_keys_set_present d k v :
  k ∈ pydict_keys d → pydict_keys (pydict_set d k v) = pydict_keys d.
Proof.
  unfold pydict_keys. induction d as [|[k' v'] d IH]; simpl.
  - intros H0. by apply elem_of_nil in H0.
  - intros Hin. destruct (decide (k' = k)) as [->|Hne]; simpl; [done|].
    f_equal. apply IH. apply elem_of_cons in Hin as [->|]; done.
Qed.

Lemma pydict_set_set d k v v' :
  pydict_set (pydict_set d k v) k v' = pydict_set d k v'.
Proof.
  induction d as [|[k0 v0] d IH]; simpl.
  - by rewrite decide_True.
  - destruct (decide (k0 = k)) as [->|Hne]; simpl.
    + by rewrite decide_True.
    + by rewrite decide_False, IH.
Qed.

Lemma pydict_keys_set d k v :
  pydict_keys (pydict_set d k v) =
    if pydict_mem d k then pydict_keys d else pydict_keys d ++ [k].
Proof.
  destruct (pydict_mem d k) eqn:Hm.
  - apply pydict_keys_set_present. by apply pydict_mem_true.
  - rewrite pydict_set_fresh.
    + unfold pydict_keys. by rewrite fmap_app.
    + intros Hin. apply pydict_mem_true in Hin. congruence.
Qed.

Lemma pydict_set_NoDup d k v :
  NoDup (pydict_keys d) → NoDup (pydict_keys (pydict_set d k v)).
Proof.
  intros Hnd. rewrite pydict_keys_set. destruct (pydict_mem d k) eqn:Hm; [done|].
  apply NoDup_app. split_and!; [done | | apply NoDup_singleton].
  intros x Hx Hk. apply list_elem_of_singleton in Hk as ->.
  apply pydict_mem_true in Hx. congruence.
Qed.

Lemma pydict_get_lookup d i k v :
  NoDup (pydict_keys d) → d !! i = Some (k, v) → pydict_get d k = Some v.
Proof.
  unfold pydict_keys. revert i. induction d as [|[k' v'] d IH]; intros i Hnd Hi.
  - done.
  - simpl in *. apply NoDup_cons in Hnd as [Hk' Hnd]. destruct i as [|i]; simpl in Hi.
    + injection Hi as -> ->. by rewrite decide_True.
    + rewrite decide_False; [by eapply IH|].
      intros ->. apply Hk'. apply list_elem_of_fmap. exists (k, v). split; [done|].
      by eapply list_elem_of_lookup_2.
Qed.

End PyDictFacts.

(** ** Loops *)

Lemma for_each_app {A S} (body : S -> A -> outcome S) (l1 l2 : list A) (s : S) :
  for_each body (l1 ++ l2) s = for_each body l1 s ≫= for_each body l2.
Proof.
  revert s. induction l1 as [|a l1 IH]; intros s; simpl; [done|].
  destruct (body s a); simpl; [apply IH | done | done].
Qed.

Lemma range_length (n : Z) : length (Py.range n) = Z.to_nat n.
Proof. unfold Py.range. by rewrite length_fmap, length_seq. Qed.

Lemma range_succ (k : nat) :
  Py.range (Z.of_nat (S k)) = Py.range (Z.of_nat k) ++ [Z.of_nat k].
Proof.
  unfold Py.range. rewrite !Nat2Z.id, seq_S, fmap_app. done.
Qed.

Lemma getitem_nat {A} (l : list A) (i : nat) :
  Py.getitem l (Z.of_nat i) = of_option IndexError (l !! i).
Proof.
  unfold Py.getitem. cbv zeta.
  destruct (decide (Z.of_nat i < 0)); [lia|].
  destruct (decide (Z.of_nat i < 0)); [lia|].
  by rewrite Nat2Z.id.
Qed.

Lemma getitem_0 {A} (l : list A) :
  Py.getitem l 0 = of_option IndexError (head l).
Proof.
  change (Py.getitem l 0) with (Py.getitem l (Z.of_nat 0)).
  rewrite getitem_nat. by destruct l.
Qed.

(** ** The label-to-embeddings map *)

Section LabelEmbeddingLoop.
Variables (ls : list (list Z)) (se : list vec).

Lemma label_embedding_step_ok m k l e :
  label_at ls k = Some l → se !! k = Some e →
  label_embedding_step ls se m (Z.of_nat k) = Return (add_to_group m l e).
Proof.
  unfold label_at, label_embedding_step, add_to_group. intros Hl He.
  rewrite !getitem_nat. destruct (ls !! k) as [row|]; [simpl in *|done].
  rewrite getitem_0, Hl, He. simpl.
  destruct (pydict_mem m l) eqn:Hm.
  - apply pydict_mem_true, pydict_get_Some_keys in Hm as [g Hg].
    by rewrite Hg.
  - rewrite pydict_get_set_eq. simpl. rewrite pydict_set_set.
    assert (pydict_get m l = None) as ->; [|done].
    apply pydict_get_None. intros Hin. apply pydict_mem_true in Hin. congruence.
Qed.

Lemma labelled_embeddings_S k l :
  labelled_embeddings ls se (S k) l =
    labelled_embeddings ls se k l ++
      (if decide (label_at ls k = Some l) then option_list (se !! k) else []).
Proof.
  unfold labelled_embeddings. rewrite seq_S, omap_app. simpl.
  f_equal. destruct (decide _); [|done]. by destruct (se !! k).
Qed.

Lemma labelled_embeddings_nil k l :
  (∀ i, (i < k)%nat → label_at ls i ≠ Some l) →
  labelled_embeddings ls se k l = [].
Proof.
  induction k as [|k IH]; intros H; [done|].
  rewrite labelled_embeddings_S, IH by (intros; apply H; lia).
  rewrite decide_False; [done|]. apply H. lia.
Qed.

Lemma labelled_embeddings_elem k l e :
  e ∈ labelled_embeddings ls se k l ↔
  ∃ i, (i < k)%nat ∧ label_at ls i = Some l ∧ se !! i = Some e.
Proof.
  unfold labelled_embeddings. rewrite list_elem_of_omap. split.
  - intros (i & Hi & He). apply elem_of_seq in Hi.
    destruct (decide _); [|done]. exists i. split_and!; [lia|done..].
  - intros (i & Hi & Hl & He). exists i. split.
    + apply elem_of_seq. lia.
    + by rewrite decide_True.
Qed.

Lemma grouped_0 : grouped ls se 0 [].
Proof.
  split_and!.
  - apply NoDup_nil_2.
  - intros l. split.
    + intros H. by apply elem_of_nil in H.
    + intros (i & Hi & _). lia.
  - done.
Qed.

Lemma grouped_S k m l e :
  grouped ls se k m → label_at ls k = Some l → se !! k = Some e →
  grouped ls se (S k) (add_to_group m l e).
Proof.
  intros (Hnd & Hkeys & Hval) Hl He. unfold add_to_group. split_and!.
  - by apply pydict_set_NoDup.
  - intros l'. rewrite pydict_keys_set.
    assert (l' ∈ pydict_keys m ∨ l' = l ↔
            ∃ i, (i < S k)%nat ∧ label_at ls i = Some l') as Hiff.
    { rewrite Hkeys. split.
      - intros [(i & Hi & Hli)| ->]; [exists i; split; [lia|done] | exists k; split; [lia|done]].
      - intros (i & Hi & Hli). destruct (decide (i = k)) as [->|Hne].
        + right. congruence.
        + left. exists i. split; [lia|done]. }
    rewrite <- Hiff. destruct (pydict_mem m l) eqn:Hm.
    + apply pydict_mem_true in Hm. split; [tauto|]. intros [?| ->]; done.
    + rewrite elem_of_app, list_elem_of_singleton. done.
  - intros l' g. rewrite labelled_embeddings_S, He. simpl.
    destruct (decide (l = l')) as [<-|Hne].
    + rewrite pydict_get_set_eq, decide_True by done. intros [= <-]. f_equal.
      destruct (pydict_get m l) as [g0|] eqn:Hg; simpl.
      * by apply Hval.
      * symmetry. apply labelled_embeddings_nil. intros i Hi Hli.
        apply pydict_get_None in Hg. apply Hg, Hkeys. eauto.
    + rewrite pydict_get_set_ne by done. rewrite decide_False by congruence.
      rewrite app_nil_r. apply Hval.
Qed.

Lemma label_embedding_prefix (n k : nat) :
  (∀ i, (i < n)%nat → is_Some (label_at ls i)) →
  (∀ i, (i < n)%nat → is_Some (se !! i)) →
  (k ≤ n)%nat →
  ∃ m, for_each (label_embedding_step ls se) (Py.range (Z.of_nat k)) []
         = Return m ∧ grouped ls se k m.
Proof.
  intros Hlab Hemb. induction k as [|k IH]; intros Hk.
  - exists []. split; [done | apply grouped_0].
  - destruct IH as (m & Hrun & Hm); [lia|].
    destruct (Hlab k) as [l Hl]; [lia|]. destruct (Hemb k) as [e He]; [lia|].
    exists (add_to_group m l e). split; [|by apply grouped_S].
    rewrite range_succ, for_each_app, Hrun. simpl.
    by rewrite (label_embedding_step_ok m k l e).
Qed.

End LabelEmbeddingLoop.

Lemma label_embedding_loop_grouped (c : config) (data_size : Z)
    (ls : list (list Z)) (se : list vec) :
  batch_size c ≠ 0 →
  (∀ i, (i < truncated_size c data_size)%nat → is_Some (label_at ls i)) →
  (∀ i, (i < truncated_size c data_size)%nat → is_Some (se !! i)) →
  ∃ m, label_embedding_loop c data_size ls se = Return m ∧
       grouped ls se (truncated_size c data_size) m.
Proof.
  intros Hb Hlab Hemb. unfold label_embedding_loop, Py.mod_.
  rewrite decide_False by done. simpl.
  destruct (label_embedding_prefix ls se _ (truncated_size c data_size) Hlab Hemb)
    as (m & Hrun & Hm); [done|].
  exists m. split; [|done]. rewrite <- Hrun. f_equal.
  unfold Py.range, truncated_size. by rewrite Nat2Z.id.
Qed.

(** ** The averages *)

Lemma np_mean_axis0_is_Some (g : list vec) (dim : nat) :
  g ≠ [] → Forall (fun e => length e = dim) g → is_Some (np_mean_axis0 g).
Proof.
  destruct g as [|r rs]; [done|]. intros _ Hall. simpl.
  apply Forall_cons in Hall as [Hr Hrs].
  assert (forallb (fun x => Nat.eqb (length x) (length r)) rs = true) as ->.
  { apply forallb_forall. intros x Hx. apply Nat.eqb_eq.
    rewrite Forall_forall in Hrs. rewrite Hr. apply Hrs.
    by apply list_elem_of_In. }
  eauto.
Qed.

Lemma vadd_lookup (a b : vec) (j : nat) (s : Q) :
  vadd a b !! j = Some s →
  ∃ x y, a !! j = Some x ∧ b !! j = Some y ∧ s = (x + y)%Q.
Proof.
  unfold vadd. rewrite lookup_zip_with_Some. intros (x & y & -> & Hx & Hy). eauto.
Qed.

Lemma foldl_vadd_lookup (rs : list vec) (acc : vec) (j : nat) (s : Q) :
  foldl vadd acc rs !! j = Some s →
  ∃ a, acc !! j = Some a ∧ s = column_sum j a rs.
Proof.
  revert acc. induction rs as [|r rs IH]; intros acc; simpl.
  - eauto.
  - intros Hs. apply IH in Hs as (a' & Ha' & ->).
    apply vadd_lookup in Ha' as (x & y & Hx & Hy & ->).
    exists x. split; [done|]. unfold column_sum. simpl. by rewrite Hy.
Qed.

Lemma np_mean_axis0_entry (rows : list vec) (v : vec) (j : nat) (x : Q) :
  np_mean_axis0 rows = Some v → v !! j = Some x →
  ∃ r rs a, rows = r :: rs ∧ r !! j = Some a ∧
            x = (column_sum j a rs / inject_Z (Z.of_nat (length rows)))%Q.
Proof.
  destruct rows as [|r rs]; [done|]. unfold np_mean_axis0.
  destruct (forallb _ rs); [|done]. intros [= <-].
  rewrite list_lookup_fmap. 
  destruct (foldl vadd r rs !! j) as [s|] eqn:Hs; [|done]. simpl.
  intros [= <-]. apply foldl_vadd_lookup in Hs as (a & Ha & ->).
  exists r, rs, a. done.
Qed.

Lemma length_vadd (a b : vec) :
  length b = length a → length (vadd a b) = length a.
Proof. intros Hb. unfold vadd. rewrite length_zip_with. lia. Qed.

Lemma length_foldl_vadd (rs : list vec) (acc : vec) :
  Forall (fun e => length e = length acc) rs →
  length (foldl vadd acc rs) = length acc.
Proof.
  revert acc. induction rs as [|r rs IH]; intros acc Hall; simpl; [done|].
  apply Forall_cons in Hall as [Hr Hrs].
  rewrite IH; rewrite length_vadd by done; [done|].
  done.
Qed.

Lemma column_sum_total (j : nat) (a : Q) (rows : list vec) :
  (column_sum j a rows == a + column_total j rows)%Q.
Proof.
  revert a. induction rows as [|r rows IH]; intros a; unfold column_sum; simpl.
  - ring.
  - fold (column_sum j (a + default 0%Q (r !! j))%Q rows). rewrite IH.
    fold (column_total j rows). ring.
Qed.

(** [np.mean(rows, axis=0)] of rows of one dimension has that dimension and
    is their element-wise mean. *)
Lemma np_mean_axis0_elementwise (rows : list vec) (v : vec) (dim : nat) :
  Forall (fun e => length e = dim) rows →
  np_mean_axis0 rows = Some v →
  length v = dim ∧ Forall2 Qeq v (elementwise_mean dim rows).
Proof.
  intros Hall Hv.
  assert (length v = dim) as Hlen.
  { destruct rows as [|r rs]; [done|]. unfold np_mean_axis0 in Hv.
    destruct (forallb _ rs); [|done]. injection Hv as <-.
    apply Forall_cons in Hall as [Hr Hrs].
    rewrite length_fmap, length_foldl_vadd; [done|].
    eapply Forall_impl; [exact Hrs|]. simpl. intros; congruence. }
  split; [done|].
  apply Forall2_same_length_lookup_2.
  { unfold elementwise_mean. by rewrite length_fmap, length_seq. }
  intros j x y Hx Hy.
  destruct (np_mean_axis0_entry rows v j x Hv Hx) as (r & rs & a & -> & Ha & ->).
  unfold elementwise_mean in Hy. rewrite list_lookup_fmap in Hy.
  destruct (seq 0 dim !! j) as [j'|] eqn:Hj; [|done].
  apply lookup_seq in Hj as [-> _]. simpl in Hy. injection Hy as <-.
  rewrite Ha. simpl. rewrite column_sum_total. reflexivity.
Qed.

Lemma labelled_embeddings_dim (ls : list (list Z)) (se : list vec)
    (n dim : nat) (l : Z) :
  (∀ i, (i < n)%nat → ∃ e, se !! i = Some e ∧ length e = dim) →
  Forall (fun e => length e = dim) (labelled_embeddings ls se n l).
Proof.
  intros Hemb. apply Forall_forall. intros e He.
  apply labelled_embeddings_elem in He as (i & Hi & _ & He).
  destruct (Hemb i Hi) as (e' & He' & Hlen). congruence.
Qed.

Lemma average_loop_acc (m : list (Z * list vec)) (acc : list (Z * vec)) :
  NoDup (pydict_keys acc ++ pydict_keys m) →
  Forall (fun p => is_Some (np_mean_axis0 p.2)) m →
  ∃ avg,
    for_each (fun average_label_embeddings '(label, group) =>
                v ← of_option ValueError (np_mean_axis0 group);
                mret (pydict_set average_label_embeddings label v)) m acc
      = Return avg ∧
    pydict_keys avg = pydict_keys acc ++ pydict_keys m ∧
    (∀ l, l ∈ pydict_keys acc → pydict_get avg l = pydict_get acc l) ∧
    (∀ l g, l ∉ pydict_keys acc → pydict_get m l = Some g →
            pydict_get avg l = np_mean_axis0 g).
Proof.
  revert acc. induction m as [|[l0 g0] m IH]; intros acc Hnd Hall.
  - exists acc. simpl. rewrite app_nil_r. done.
  - apply Forall_cons in Hall as [[v Hv] Hall]. simpl in Hv.
    assert (l0 ∉ pydict_keys acc) as Hfresh.
    { apply NoDup_app in Hnd as (_ & Hdisj & _). intros Hin.
      apply (Hdisj l0 Hin). unfold pydict_keys. simpl. apply list_elem_of_here. }
    assert (pydict_keys (acc ++ [(l0, v)]) = pydict_keys acc ++ [l0]) as Hkeys.
    { unfold pydict_keys. by rewrite fmap_app. }
    destruct (IH (acc ++ [(l0, v)])) as (avg & Hrun & Hk & Hold & Hnew).
    { rewrite Hkeys, <- app_assoc. done. }
    { done. }
    exists avg. split_and!.
    + simpl. rewrite Hv. simpl. by rewrite pydict_set_fresh.
    + rewrite Hk, Hkeys, <- app_assoc. done.
    + intros l Hl. rewrite Hold.
      * rewrite <- (pydict_set_fresh acc l0 v) by done.
        apply pydict_get_set_ne. intros ->. done.
      * rewrite Hkeys. apply elem_of_app. by left.
    + intros l g Hl. simpl. destruct (decide (l0 = l)) as [<-|Hne].
      * intros [= <-]. rewrite Hold.
        -- rewrite <- (pydict_set_fresh acc l0 v) by done.
           by rewrite pydict_get_set_eq.
        -- rewrite Hkeys. apply elem_of_app. right. apply list_elem_of_here.
      * intros Hg. apply Hnew; [|done]. rewrite Hkeys, elem_of_app.
        rewrite list_elem_of_singleton. intros [?|?]; [done|congruence].
Qed.

Lemma average_loop_ok (m : list (Z * list vec)) :
  NoDup (pydict_keys m) →
  Forall (fun p => is_Some (np_mean_axis0 p.2)) m →
  ∃ avg, average_loop m = Return avg ∧
         pydict_keys avg = pydict_keys m ∧
         (∀ l g, pydict_get m l = Some g → pydict_get avg l = np_mean_axis0 g).
Proof.
  intros Hnd Hall. destruct (average_loop_acc m [] Hnd Hall)
    as (avg & Hrun & Hk & _ & Hnew).
  exists avg. split_and!; [done..|].
  intros l g. apply Hnew. apply not_elem_of_nil.
Qed.

(** The pure content of [get_average_label_embeddings]: the averages of
    the groups built from the examples kept. *)
Lemma averages_of_prefix (c : config) (data_size : Z) (ls : list (list Z))
    (se : list vec) (dim : nat) :
  batch_size c ≠ 0 →
  (∀ i, (i < truncated_size c data_size)%nat → is_Some (label_at ls i)) →
  (∀ i, (i < truncated_size c data_size)%nat →
        ∃ e, se !! i = Some e ∧ length e = dim) →
  ∃ m avg,
    label_embedding_loop c data_size ls se = Return m ∧
    average_loop m = Return avg ∧
    NoDup (pydict_keys avg) ∧
    (∀ l, l ∈ pydict_keys avg ↔
          ∃ i, (i < truncated_size c data_size)%nat ∧ label_at ls i = Some l) ∧
    (∀ l, l ∈ pydict_keys avg →
          pydict_get avg l =
            np_mean_axis0 (labelled_embeddings ls se (truncated_size c data_size) l)).
Proof.
  intros Hb Hlab Hemb.
  destruct (label_embedding_loop_grouped c data_size ls se Hb Hlab)
    as (m & Hm & Hnd & Hkeys & Hval).
  { intros i Hi. destruct (Hemb i Hi) as (e & He & _). eauto. }
  destruct (average_loop_ok m Hnd) as (avg & Havg & Hk & Hget).
  { apply Forall_forall. intros [l g] Hin. simpl.
    apply list_elem_of_lookup in Hin as [j Hj].
    pose proof (pydict_get_lookup m j l g Hnd Hj) as Hg.
    rewrite (Hval l g Hg). apply (np_mean_axis0_is_Some _ dim).
    - assert (l ∈ pydict_keys m) as Hl by (apply pydict_get_Some_keys; eauto).
      apply Hkeys in Hl as (i & Hi & Hli). destruct (Hemb i Hi) as (e & He & _).
      intros Hnil.
      assert (e ∈ labelled_embeddings ls se (truncated_size c data_size) l) as Hin
        by (apply labelled_embeddings_elem; eauto).
      rewrite Hnil in Hin. by apply elem_of_nil in Hin.
    - apply Forall_forall. intros e He.
      apply labelled_embeddings_elem in He as (i & Hi & _ & He).
      destruct (Hemb i Hi) as (e' & He' & Hlen).
      congruence. }
  exists m, avg. split_and!; [done|done| | |].
  - by rewrite Hk.
  - intros l. by rewrite Hk.
  - intros l Hl. rewrite Hk in Hl. apply pydict_get_Some_keys in Hl as [g Hg].
    rewrite (Hget l g Hg). by rewrite (Hval l g Hg).
Qed.

(** ** Counting the examples used *)

Lemma total_embeddings_set (m : list (Z * list vec)) (l : Z) (g : list vec) :
  (total_embeddings (pydict_set m l g)
     + length (default [] (pydict_get m l)))%nat
  = (total_embeddings m + length g)%nat.
Proof.
  unfold total_embeddings. induction m as [|[l' g'] m IH]; simpl.
  - lia.
  - destruct (decide (l' = l)) as [->|Hne]; csimpl; lia.
Qed.

Lemma total_embeddings_add (m : list (Z * list vec)) (l : Z) (e : vec) :
  total_embeddings (add_to_group m l e) = S (total_embeddings m).
Proof.
  unfold add_to_group.
  pose proof (total_embeddings_set m l (default [] (pydict_get m l) ++ [e])) as H.
  rewrite length_app in H. simpl in H. lia.
Qed.

Lemma label_embedding_step_inv (ls : list (list Z)) (se : list vec)
    (m m' : list (Z * list vec)) (i : Z) :
  label_embedding_step ls se m i = Return m' →
  ∃ l e, m' = add_to_group m l e.
Proof.
  unfold label_embedding_step, add_to_group.
  destruct (Py.getitem ls i) as [row| |]; simpl; [|done..].
  destruct (Py.getitem row 0) as [l| |]; simpl; [|done..].
  destruct (pydict_mem m l) eqn:Hm.
  - apply pydict_mem_true, pydict_get_Some_keys in Hm as [g Hg].
    rewrite Hg. simpl.
    destruct (Py.getitem se i) as [e| |]; simpl; [|done..].
    intros H. exists l, e. rewrite Hg. simpl. by injection H as <-.
  - rewrite pydict_get_set_eq. simpl.
    destruct (Py.getitem se i) as [e| |]; simpl; [|done..].
    rewrite pydict_set_set. intros H. exists l, e.
    assert (pydict_get m l = None) as ->; [|simpl; by injection H as <-].
    apply pydict_get_None. intros Hin. apply pydict_mem_true in Hin. congruence.
Qed.

Lemma label_embedding_total (ls : list (list Z)) (se : list vec)
    (idx : list Z) (m0 m : list (Z * list vec)) :
  for_each (label_embedding_step ls se) idx m0 = Return m →
  total_embeddings m = (total_embeddings m0 + length idx)%nat.
Proof.
  revert m0. induction idx as [|i idx IH]; intros m0; simpl.
  - intros [= <-]. lia.
  - destruct (label_embedding_step ls se m0 i) as [m1| |] eqn:Hstep; simpl; [|done..].
    intros Hrest. apply label_embedding_step_inv in Hstep as (l & e & ->).
    rewrite (IH _ Hrest), total_embeddings_add. lia.
Qed.

Lemma slice_prefix_length {A} (l : list A) (n : Z) :
  0 ≤ n ≤ Z.of_nat (length l) →
  Z.of_nat (length (Py.slice l 0 (0 + n))) = n.
Proof.
  intros Hn. unfold Py.slice, Py.clamp. rewrite Z.add_0_l.
  rewrite (decide_False (P := 0 < 0)) by lia.
  rewrite (decide_False (P := n < 0)) by lia.
  simpl. rewrite drop_0, length_take. lia.
Qed.

Lemma get_average_label_embeddings_outcome (W : world) (data_size : Z)
    (ls : list (list Z)) (se : list vec) (st : pstate) :
  files st !! all_style_embeddings_path (cfg W) = Some (StyleEmbeddings se) →
  (get_average_label_embeddings W data_size ls st).1
  = label_embedding_loop (cfg W) data_size ls se ≫= average_loop.
Proof.
  intros Hfile. unfold get_average_label_embeddings.
  unfold mbind, M_bind, emit, read_file, write_file, logger_debug, emit, lift.
  simpl. rewrite Hfile. simpl.
  destruct (label_embedding_loop (cfg W) data_size ls se); simpl; [|done..].
  by destruct (average_loop a).
Qed.

(** * The specification's statements *)

(** C1. With a positive batch size, the sampling range of [main] and the
    loop of [get_average_label_embeddings] both cover
    [data_size - data_size mod batch_size] examples: the sampling-range
    size is computed without error, the averaging loop runs over exactly
    that many indices and files exactly that many embeddings, the slice of
    ground-truth sentences has that many rows, the number kept is a
    multiple of the batch size and fewer than [batch_size] trailing
    examples are dropped.  With [batch_size = 4] and [data_size = 10],
    8 examples are used and 2 are dropped. *)
Theorem truncation_to_full_batches (W : world) (data_size : Z)
    (actual_sequences ls : list (list Z)) (se : list vec) :
  0 < batch_size (cfg W) → 0 ≤ data_size →
  let n := data_size - data_size mod batch_size (cfg W) in
  sampling_range_size W data_size = Return n ∧
  label_embedding_loop (cfg W) data_size ls se
    = for_each (label_embedding_step ls se) (Py.range n) [] ∧
  Z.of_nat (length (Py.range n)) = n ∧
  (∀ m, label_embedding_loop (cfg W) data_size ls se = Return m →
        Z.of_nat (total_embeddings m) = n) ∧
  (Z.of_nat (length actual_sequences) = data_size →
   Z.of_nat (length (Py.slice actual_sequences 0 (0 + n))) = n) ∧
  0 ≤ n ≤ data_size ∧
  data_size - n < batch_size (cfg W) ∧
  (batch_size (cfg W) | n) ∧
  (batch_size (cfg W) = 4 → data_size = 10 → n = 8 ∧ data_size - n = 2).
Proof.
  intros Hb Hd n.
  pose proof (Z.mod_pos_bound data_size (batch_size (cfg W)) Hb) as Hr.
  assert (data_size mod batch_size (cfg W) ≤ data_size) as Hle
    by (apply Z.mod_le; lia).
  assert (label_embedding_loop (cfg W) data_size ls se
          = for_each (label_embedding_step ls se) (Py.range n) []) as Hloop.
  { unfold label_embedding_loop, Py.mod_. by rewrite decide_False by lia. }
  split_and!.
  - unfold sampling_range_size, Py.mod_. by rewrite decide_False by lia.
  - done.
  - rewrite range_length. lia.
  - intros m Hm. rewrite Hloop in Hm.
    apply label_embedding_total in Hm. rewrite Hm, range_length.
    unfold total_embeddings. simpl. lia.
  - intros Hlen. apply slice_prefix_length. lia.
  - lia.
  - lia.
  - lia.
  - exists (data_size / batch_size (cfg W)). unfold n.
    rewrite Z.mod_eq by lia. lia.
  - intros Hb4 Hd10. unfold n. rewrite Hb4, Hd10. done.
Qed.

(** C2. When the stored style embeddings cover the examples kept and all
    have one dimension [dim], and every example kept has a label,
    [get_average_label_embeddings] returns a dictionary whose keys are
    pairwise distinct and are exactly the labels of the first
    [data_size - data_size mod batch_size] examples, and whose value at
    each key is the element-wise mean of the style embeddings of exactly the
    examples among those that carry the label: these embeddings are at
    least one and all of dimension [dim], the value has [dim] entries, and
    for every [j] below [dim] its entry [j] is the sum of the entries [j]
    of these embeddings divided by their number. *)
Theorem average_label_embeddings_per_label (W : world) (data_size : Z)
    (ls : list (list Z)) (se : list vec) (dim : nat) (st : pstate) :
  batch_size (cfg W) ≠ 0 →
  files st !! all_style_embeddings_path (cfg W) = Some (StyleEmbeddings se) →
  (∀ i, (i < truncated_size (cfg W) data_size)%nat → is_Some (label_at ls i)) →
  (∀ i, (i < truncated_size (cfg W) data_size)%nat →
        ∃ e, se !! i = Some e ∧ length e = dim) →
  ∃ avg,
    (get_average_label_embeddings W data_size ls st).1 = Return avg ∧
    NoDup (pydict_keys avg) ∧
    (∀ l, l ∈ pydict_keys avg ↔
          ∃ i, (i < truncated_size (cfg W) data_size)%nat ∧
               label_at ls i = Some l) ∧
    (∀ l, l ∈ pydict_keys avg →
          pydict_get avg l =
            np_mean_axis0
              (labelled_embeddings ls se (truncated_size (cfg W) data_size) l)) ∧
    (∀ l v j x, pydict_get avg l = Some v → v !! j = Some x →
       ∃ r rs a,
         labelled_embeddings ls se (truncated_size (cfg W) data_size) l
           = r :: rs ∧
         r !! j = Some a ∧
         x = (column_sum j a rs / inject_Z (Z.of_nat (length (r :: rs))))%Q) ∧
    (∀ l, l ∈ pydict_keys avg →
       ∃ v,
         pydict_get avg l = Some v ∧
         length v = dim ∧
         labelled_embeddings ls se (truncated_size (cfg W) data_size) l ≠ [] ∧
         Forall (fun e => length e = dim)
           (labelled_embeddings ls se (truncated_size (cfg W) data_size) l) ∧
         Forall2 Qeq v
           (elementwise_mean dim
              (labelled_embeddings ls se (truncated_size (cfg W) data_size) l))).
Proof.
  intros Hb Hfile Hlab Hemb.
  destruct (averages_of_prefix (cfg W) data_size ls se dim Hb Hlab Hemb)
    as (m & avg & Hm & Havg & Hnd & Hkeys & Hval).
  exists avg. split_and!; [|done..| |].
  - rewrite (get_average_label_embeddings_outcome W data_size ls se st Hfile).
    rewrite Hm. simpl. done.
  - intros l v j x Hv Hx.
    assert (l ∈ pydict_keys avg) as Hl by (apply pydict_get_Some_keys; eauto).
    rewrite (Hval l Hl) in Hv.
    destruct (np_mean_axis0_entry _ v j x Hv Hx) as (r & rs & a & Heq & Ha & ->).
    exists r, rs, a. by rewrite Heq.
  - intros l Hl.
    pose proof (labelled_embeddings_dim ls se _ dim l Hemb) as Hdim.
    destruct (proj2 (pydict_get_Some_keys avg l) Hl) as [v Hv].
    pose proof Hv as Hv'. rewrite (Hval l Hl) in Hv'.
    destruct (np_mean_axis0_elementwise _ v dim Hdim Hv') as [Hlen Hmean].
    exists v. split_and!; [done|done| |done|done].
    intros Hnil. rewrite Hnil in Hv'. done.
Qed.

(** ** Padding *)

Lemma pad_sequences_rows (sequences : list (list Z)) (maxlen value : Z) :
  0 ≤ maxlen →
  ∃ padded, pad_sequences sequences maxlen value = Return padded ∧
            length padded = length sequences ∧
            Forall (fun row => Z.of_nat (length row) = maxlen) padded.
Proof.
  intros Hmax. unfold pad_sequences. rewrite decide_False by lia.
  eexists. split_and!; [done | by rewrite length_fmap |].
  apply Forall_fmap, Forall_forall. intros s _. simpl.
  rewrite length_app, length_replicate.
  assert (length (Py.slice_to s maxlen) ≤ Z.to_nat maxlen)%nat; [|lia].
  unfold Py.slice_to, Py.clamp. rewrite decide_False by lia.
  rewrite length_take. lia.
Qed.

(** C5. Given a non-negative [max_sequence_length], at least one reported
    length and an end-of-sequence entry in the vocabulary,
    [execute_post_inference_operations] trims every generated sequence to
    its reported length and pads or cuts it, one output row per pair of a
    sequence and a length; every such row has exactly
    [max_sequence_length] positions (so never more), and the sentences
    written to the output file are the words of these rows. *)
Theorem post_inference_rows_have_max_length (W : world)
    (word_index : list (string * Z)) (actual_word_lists : list (list string))
    (generated_sequences : list (list Z)) (final_sequence_lengths : list Z)
    (max_sequence_length : Z) (inverse_word_index : list (Z * string))
    (timestamped_file_suffix mode : string) (st : pstate) :
  0 ≤ max_sequence_length →
  final_sequence_lengths ≠ [] →
  is_Some (pydict_get word_index (eos_token (cfg W))) →
  ∃ rows,
    trim_and_pad W word_index generated_sequences final_sequence_lengths
      max_sequence_length = Return rows ∧
    length rows
      = Nat.min (length generated_sequences) (length final_sequence_lengths) ∧
    Forall (fun row => Z.of_nat (length row) = max_sequence_length ∧
                       Z.of_nat (length row) ≤ max_sequence_length) rows ∧
    let r := execute_post_inference_operations W word_index actual_word_lists
               generated_sequences final_sequence_lengths max_sequence_length
               inverse_word_index timestamped_file_suffix mode st in
    r.1 = Return tt ∧
    files r.2 !! ("output/generated_" +:+ mode +:+ "_"
                    +:+ timestamped_file_suffix +:+ ".txt")
    = Some (TextLines
              ((fun x => join_words
                           (generate_words_from_indices W x inverse_word_index))
                 <$> rows)).
Proof.
  intros Hmax Hne [eos Heos].
  destruct (pad_sequences_rows
              ((fun '(x, y) => Py.slice_to x y)
                 <$> zip generated_sequences final_sequence_lengths)
              max_sequence_length eos Hmax) as (rows & Hpad & Hlen & Hrows).
  assert (trim_and_pad W word_index generated_sequences final_sequence_lengths
            max_sequence_length = Return rows) as Htrim.
  { unfold trim_and_pad. rewrite Heos. simpl. exact Hpad. }
  exists rows. split_and!.
  - exact Htrim.
  - rewrite Hlen, length_fmap, length_zip. done.
  - eapply Forall_impl; [exact Hrows|]. simpl. intros row Hrow. lia.
  - unfold execute_post_inference_operations.
    unfold mbind, M_bind, lift, logger_debug, logger_info, emit, write_file.
    destruct final_sequence_lengths as [|y ys]; [done|]. simpl.
    rewrite Htrim. simpl. split; [done|].
    rewrite <- list_fmap_compose. apply lookup_insert_eq.
Qed.

(** ** Markers of the plot *)

Lemma foldl_snoc {A} (acc l : list A) :
  foldl (fun acc x => acc ++ [x]) acc l = acc ++ l.
Proof.
  revert acc. induction l as [|x l IH]; intros acc; simpl.
  - by rewrite app_nil_r.
  - rewrite IH, <- app_assoc. done.
Qed.

Lemma slice_middle {A} (pre g post : list A) :
  Py.slice (pre ++ g ++ post) (Z.of_nat (length pre))
    (Z.of_nat (length pre) + Z.of_nat (length g)) = g.
Proof.
  unfold Py.slice, Py.clamp. rewrite !length_app.
  rewrite (decide_False (P := Z.of_nat (length pre) < 0)) by lia.
  rewrite (decide_False
             (P := Z.of_nat (length pre) + Z.of_nat (length g) < 0)) by lia.
  replace (Nat.min (Z.to_nat (Z.of_nat (length pre)))
             (length pre + (length g + length post)))
    with (length pre) by lia.
  replace (Nat.min (Z.to_nat (Z.of_nat (length pre) + Z.of_nat (length g)))
             (length pre + (length g + length post)) - length pre)%nat
    with (length g) by lia.
  rewrite drop_app_length. apply take_app_length.
Qed.

Lemma marker_at_le (groups : list (list vec)) (i j : nat) :
  (i ≤ j)%nat → marker_at groups i ≤ marker_at groups j.
Proof.
  intros Hij. unfold marker_at.
  replace j with (i + (j - i))%nat by lia.
  rewrite <- take_take_drop, concat_app, length_app. lia.
Qed.

Lemma marker_at_S (groups : list (list vec)) (i : nat) (g : list vec) :
  groups !! i = Some g →
  marker_at groups (S i) = marker_at groups i + Z.of_nat (length g).
Proof.
  intros Hg. unfold marker_at.
  rewrite (take_S_r _ _ _ Hg), concat_app, length_app. simpl.
  rewrite app_nil_r. lia.
Qed.

Lemma collect_prefix (d : list (Z * list vec)) (k : nat) :
  NoDup (pydict_keys d) → (k ≤ length d)%nat →
  for_each (collect_step d)
    (take k (pydict_keys d)) ([], [])
  = Return (concat (take k d.*2), marker_at d.*2 <$> seq 0 k).
Proof.
  intros Hnd. induction k as [|k IH]; intros Hk; [done|].
  destruct (lookup_lt_is_Some_2 d k) as [[l g] Hlg]; [lia|].
  assert (pydict_keys d !! k = Some l) as Hl.
  { unfold pydict_keys. by rewrite list_lookup_fmap, Hlg. }
  assert (d.*2 !! k = Some g) as Hg by (by rewrite list_lookup_fmap, Hlg).
  rewrite (take_S_r _ _ _ Hl), for_each_app, IH by lia.
  rewrite (take_S_r _ _ _ Hg), concat_app, seq_S, fmap_app.
  unfold mbind at 1. unfold outcome_bind, for_each, collect_step.
  rewrite (pydict_get_lookup d k l g Hnd Hlg).
  unfold of_option, mbind, outcome_bind, mret, outcome_ret.
  rewrite foldl_snoc. unfold marker_at at 3. simpl. by rewrite app_nil_r.
Qed.

Lemma collect_embeddings_markers (d : list (Z * list vec)) :
  NoDup (pydict_keys d) →
  collect_embeddings d
  = Return (concat d.*2, marker_at d.*2 <$> seq 0 (S (length d))).
Proof.
  intros Hnd. unfold collect_embeddings.
  pose proof (collect_prefix d (length d) Hnd (le_n _)) as Hrun.
  rewrite (take_ge (pydict_keys d)) in Hrun
    by (unfold pydict_keys; by rewrite length_fmap).
  rewrite Hrun, seq_S, fmap_app.
  unfold mbind, outcome_bind, mret, outcome_ret, marker_at at 3. simpl.
  by rewrite (take_ge d.*2) by (by rewrite length_fmap).
Qed.

Lemma markers_lookup (groups : list (list vec)) (n i : nat) :
  (i < n)%nat →
  (marker_at groups <$> seq 0 n) !! i = Some (marker_at groups i).
Proof.
  intros Hi. rewrite list_lookup_fmap, lookup_seq_lt by done. done.
Qed.

(** C10. For a dictionary (its keys pairwise distinct),
    [generate_plot_coordinates] collects the embeddings of all groups end to
    end and a list of markers with one more element than there are labels:
    the first marker is 0, the last is the number of embeddings, the markers
    never decrease, and markers [i] and [i + 1] bound exactly the block
    holding the group of the [i]-th label in iteration order. *)
Theorem markers_delimit_label_blocks (d : list (Z * list vec)) :
  NoDup (pydict_keys d) →
  ∃ embeddings markers,
    collect_embeddings d = Return (embeddings, markers) ∧
    length markers = S (length d) ∧
    markers !! 0%nat = Some 0 ∧
    last markers = Some (Z.of_nat (length embeddings)) ∧
    (∀ i j a b, (i ≤ j)%nat →
                markers !! i = Some a → markers !! j = Some b → a ≤ b) ∧
    (∀ i label group, d !! i = Some (label, group) →
       ∃ a b, markers !! i = Some a ∧ markers !! S i = Some b ∧
              Py.slice embeddings a b = group).
Proof.
  intros Hnd. eexists _, _. split; [by apply collect_embeddings_markers|].
  set (gs := d.*2). set (n := S (length d)).
  assert (∀ i a, (marker_at gs <$> seq 0 n) !! i = Some a →
                 (i < n)%nat ∧ a = marker_at gs i) as Hinv.
  { intros i a Hi. assert (i < n)%nat as Hlt.
    { apply lookup_lt_Some in Hi. by rewrite length_fmap, length_seq in Hi. }
    rewrite markers_lookup in Hi by done. split; [done|congruence]. }
  split_and!.
  - by rewrite length_fmap, length_seq.
  - by rewrite markers_lookup by (unfold n; lia).
  - rewrite last_lookup, length_fmap, length_seq. unfold n.
    rewrite Nat.pred_succ, markers_lookup by lia. unfold marker_at, gs.
    rewrite take_ge by (by rewrite length_fmap). done.
  - intros i j a b Hij Ha Hb.
    apply Hinv in Ha as [_ ->]. apply Hinv in Hb as [_ ->].
    by apply marker_at_le.
  - intros i label group Hi.
    assert (gs !! i = Some group) as Hg by (unfold gs; by rewrite list_lookup_fmap, Hi).
    pose proof (lookup_lt_Some _ _ _ Hi) as Hlt.
    exists (marker_at gs i), (marker_at gs (S i)). split_and!.
    + apply markers_lookup. unfold n. lia.
    + apply markers_lookup. unfold n. lia.
    + rewrite (marker_at_S gs i group Hg). unfold marker_at.
      assert (concat gs = concat (take i gs) ++ group ++ concat (drop (S i) gs))
        as ->; [|apply slice_middle].
      rewrite <- (take_drop_middle gs i group Hg) at 1.
      by rewrite concat_app.
Qed.

(** ** The driver *)

Lemma drop_trace_app (t evs : list event) : drop (length t) (t ++ evs) = evs.
Proof. apply drop_app_length. Qed.

(** Membership of an event in a list written out, by comparing it with
    each element. *)
Ltac absent_event H :=
  repeat (apply elem_of_cons in H as [H|H]; [discriminate H|]);
  by apply elem_of_nil in H.

(** C6. When the text file path or the label file path is not given,
    [parse_args] exits (status 2) and so does [main], leaving the state as
    it was: no event at all has happened, in particular no data has been
    read and no model built. *)
Theorem missing_path_fails_fast (W : world) (argv : invocation) (st : pstate) :
  given_text_file_path argv = None ∨ given_label_file_path argv = None →
  parse_args argv = SystemExit 2 ∧
  main W argv st = (SystemExit 2, st) ∧
  events_of (main W argv) st = [].
Proof.
  intros Hmiss.
  assert (parse_args argv = SystemExit 2) as Hparse.
  { unfold parse_args. destruct Hmiss as [-> | ->]; [done|].
    by destruct (given_text_file_path argv). }
  assert (main W argv st = (SystemExit 2, st)) as Hmain.
  { unfold main, mbind, M_bind, lift. by rewrite Hparse. }
  split_and!; [done..|].
  unfold events_of. rewrite Hmain. simpl. by rewrite drop_all.
Qed.

(** C4. When the command line is accepted and none of the train-model,
    infer-sequences and generate-novel-text flags is set, [main] sets up
    the logger, logs "Nothing to do. Exiting ..." and exits with status 0;
    these are its only events, so no data is read and no model is built. *)
Theorem nothing_to_do_exits_zero (W : world) (argv : invocation)
    (args : command_line_args) (st : pstate) :
  parse_args argv = Return args →
  train_model args = false →
  infer_sequences args = false →
  generate_novel_text args = false →
  (main W argv st).1 = SystemExit 0 ∧
  events_of (main W argv) st
  = [SetupLogger (logger_name (cfg W)) (logging_level args);
     Log "INFO" "Nothing to do. Exiting ..." []] ∧
  existsb reads_data_or_builds_model (events_of (main W argv) st) = false ∧
  files (main W argv st).2 = files st.
Proof.
  intros Hparse Ht Hi Hg.
  assert (main W argv st
          = (SystemExit 0,
             {| trace := (trace st
                          ++ [SetupLogger (logger_name (cfg W))
                                (logging_level args)])
                         ++ [Log "INFO" "Nothing to do. Exiting ..." []];
                files := files st; sessions := sessions st;
                draws := draws st |})) as Hmain.
  { unfold main, mbind, M_bind, lift. rewrite Hparse. simpl.
    rewrite Ht, Hi, Hg. done. }
  assert (events_of (main W argv) st
          = [SetupLogger (logger_name (cfg W)) (logging_level args);
             Log "INFO" "Nothing to do. Exiting ..." []]) as Hev.
  { unfold events_of. rewrite Hmain. simpl.
    rewrite <- app_assoc. apply drop_trace_app. }
  split_and!.
  - by rewrite Hmain.
  - done.
  - by rewrite Hev.
  - by rewrite Hmain.
Qed.

(** C8. Without the train-model flag the use-pretrained-embeddings flag
    changes nothing: the whole run of [main] is the same with the flag set
    or unset, [get_word_embeddings] called with [train_model = false]
    behaves as if the flag were unset, what it returns are the two
    matrices just drawn by [np.random.uniform], and in any call
    [word_embedder.add_word_vectors_to_embeddings] is reached only with
    both flags set. *)
Theorem pretrained_flag_needs_training (W : world) (argv : invocation)
    (b : bool) (st : pstate) :
  given_train_model argv = false →
  main W (with_pretrained b argv) st = main W argv st ∧
  (∀ vocab_size word_index st',
     get_word_embeddings W vocab_size word_index b false st'
     = get_word_embeddings W vocab_size word_index false false st' ∧
     (∀ out, (get_word_embeddings W vocab_size word_index b false st').1
             = Return out →
             out = (random_uniform W (draws st') vocab_size
                      (embedding_size (cfg W)),
                    random_uniform W (S (draws st')) vocab_size
                      (embedding_size (cfg W))))) ∧
  (∀ vocab_size word_index use train st' path,
     AddWordVectors path
       ∈ events_of (get_word_embeddings W vocab_size word_index use train) st' →
     train = true ∧ use = true).
Proof.
  intros Htrain. split_and!.
  - unfold main, mbind, M_bind, lift, parse_args. simpl.
    destruct (given_text_file_path argv), (given_label_file_path argv);
      simpl; try done.
    rewrite Htrain. simpl. done.
  - intros vocab_size word_index st'. split; [done|].
    intros out. unfold get_word_embeddings, np_random_uniform.
    unfold mbind, M_bind, mret, M_ret, fresh_draw, emit, logger_debug, emit, lift.
    simpl.
    destruct (decide (vocab_size < 0 ∨ embedding_size (cfg W) < 0));
      simpl; [done|].
    by intros [= <-].
  - intros vocab_size word_index use train st' path.
    unfold events_of, get_word_embeddings, np_random_uniform.
    unfold mbind, M_bind, mret, M_ret, fresh_draw, emit, logger_debug,
      logger_info, emit, lift.
    simpl.
    destruct (decide (vocab_size < 0 ∨ embedding_size (cfg W) < 0)); simpl.
    + rewrite drop_trace_app. intros Hin. absent_event Hin.
    + destruct train, use; simpl; rewrite <- ?app_assoc, drop_trace_app;
        simpl; intros Hin; try done; absent_event Hin.
Qed.

(** Running [main] symbolically: unfold the driver and split on whatever
    its control flow depends on. *)
Ltac unfold_driver :=
  unfold main, train_model_branch, infer_sequences_branch,
    generate_novel_text_branch, network_train, network_infer,
    network_generate_novel_sentences, execute_post_inference_operations,
    flush_ground_truth_sentences, get_average_label_embeddings,
    get_word_embeddings, get_data, np_random_uniform, randint,
    get_tensorflow_session, session_close, when_, sys_exit,
    logger_info, logger_debug, fresh_draw, read_file, write_file,
    update_files, emit, lift, initial;
  unfold mbind, M_bind, mret, M_ret.

Ltac split_run :=
  repeat (simpl;
          match goal with
          | |- context [match ?x with _ => _ end] =>
              lazymatch x with
              | context [match _ with _ => _ end] => fail
              | _ => destruct x eqn:?
              end
          end);
  simpl.

(** Split on what the command line gives. *)
Ltac case_flags argv :=
  let tm := fresh "tm" in
  let inf := fresh "inf" in
  let gen := fresh "gen" in
  let tp := fresh "tp" in
  let lp := fresh "lp" in
  destruct argv as [? tm inf gen ? ? ? tp lp ?];
  simpl in *; unfold parse_args; simpl;
  destruct tm, inf, gen, tp, lp; try discriminate.

Lemma sessions_closed_without_generation (W : world) (argv : invocation)
    (fs : gmap string file_content) :
  given_generate_novel_text argv = false →
  unclosed_sessions (trace (main W argv (initial fs)).2) = [].
Proof.
  intros Hg. unfold_driver. case_flags argv; split_run; reflexivity.
Qed.

(** What the training and inference paths do and the generation path does
    not: whenever [main] gets through a run with the generate-novel-text
    flag, a session is left open. *)
Lemma session_left_open_by_generation (W : world) (argv : invocation)
    (fs : gmap string file_content) :
  given_generate_novel_text argv = true →
  (main W argv (initial fs)).1 = Return tt →
  unclosed_sessions (trace (main W argv (initial fs)).2) ≠ [].
Proof.
  intros Hg. unfold_driver.
  case_flags argv; split_run; intros Hret; try discriminate Hret; discriminate.
Qed.

(** C3. Not met on the generation path: in the run of [main] with
    only the generate-novel-text flag, on ten examples with batch size 4
    and style embeddings stored by an earlier training run, the run
    returns normally and the session opened for
    [network.generate_novel_sentences] is never closed. *)
Theorem generation_session_never_closed :
  let r := main Demo.demo_world (Demo.demo_argv false false true)
             Demo.demo_trained in
  (r.1 = Return tt ∧
   SessionOpen 0 ∈ trace r.2 ∧
   (SessionClose 0 ∉ trace r.2) ∧
   unclosed_sessions (trace r.2) = [0%nat]).
Proof.
  split_and!.
  - by vm_compute.
  - vm_compute.
    repeat first [apply list_elem_of_here | apply list_elem_of_further].
  - vm_compute. intros Hin. absent_event Hin.
  - by vm_compute.
Qed.

(** C7. In every run of [main] a call of the BLEU scorer comes only after
    a call of [network.infer] or [network.generate_novel_sentences], and a
    run with neither the infer-sequences nor the generate-novel-text flag
    (so a run that only trains) never calls it. *)
Theorem bleu_only_after_inference (W : world) (argv : invocation)
    (fs : gmap string file_content) :
  bleu_follows_inference false (trace (main W argv (initial fs)).2) = true ∧
  (given_infer_sequences argv = false →
   given_generate_novel_text argv = false →
   existsb is_bleu (trace (main W argv (initial fs)).2) = false).
Proof.
  split.
  - unfold_driver. case_flags argv; split_run; reflexivity.
  - intros Hi Hg. unfold_driver. case_flags argv; split_run; reflexivity.
Qed.

(** ** The generation path *)

Lemma get_average_label_embeddings_run (W : world) (data_size : Z)
    (ls : list (list Z)) (se : list vec) (st : pstate)
    (m : list (Z * list vec)) (avg : list (Z * vec)) :
  files st !! all_style_embeddings_path (cfg W) = Some (StyleEmbeddings se) →
  label_embedding_loop (cfg W) data_size ls se = Return m →
  average_loop m = Return avg →
  get_average_label_embeddings W data_size ls st
  = (Return avg,
     {| trace := trace st
                 ++ [PickleLoad (all_style_embeddings_path (cfg W));
                     PickleDump (label_mapped_style_embeddings_path (cfg W));
                     Log "DEBUG" "Pickled label mapped style embeddings" []];
        files := <[label_mapped_style_embeddings_path (cfg W)
                   := LabelEmbeddingMap m]> (files st);
        sessions := sessions st; draws := draws st |}).
Proof.
  intros Hfile Hm Havg. unfold get_average_label_embeddings.
  unfold mbind, M_bind, emit, read_file, write_file, logger_debug, emit, lift.
  simpl. rewrite Hfile. simpl. rewrite Hm. simpl. rewrite Havg.
  by rewrite <- !app_assoc.
Qed.

Lemma randint_in_range (a b x : Z) : a ≤ b → a ≤ a + x mod (b - a + 1) ≤ b.
Proof.
  intros Hab. pose proof (Z.mod_pos_bound x (b - a + 1)). lia.
Qed.

(** In every run of [main], inference and generation are called on the
    sampling range of C1. *)
Lemma main_samples_full_batches (W : world) (argv : invocation) (text : string)
    (fs : gmap string file_content) :
  given_text_file_path argv = Some text →
  let data_size :=
    Z.of_nat (length (padded_sequences
                        (get_text_sequences W text
                           (default 1000 (given_vocab_size argv))))) in
  Forall (samples_full_batches (data_size - data_size mod batch_size (cfg W)))
    (trace (main W argv (initial fs)).2).
Proof.
  intros Ht data_size. unfold data_size. clear data_size. unfold_driver.
  unfold sampling_range_size, Py.mod_. unfold mbind, outcome_bind, mret, outcome_ret.
  case_flags argv; injection Ht as ->; split_run;
    repeat (apply Forall_cons_2; [by simpl|]); apply Forall_nil_2.
Qed.

Ltac enter_generation :=
  unfold generate_novel_text_branch, randint;
  unfold mbind at 1 2 3 4 5 6 7; unfold M_bind at 1 2 3 4 5 6 7;
  unfold logger_info at 1, logger_debug at 1, fresh_draw, emit, lift, mret, M_ret;
  match goal with
  | |- context [decide (?b < 1)] => destruct (decide (b < 1)) as [?|_]; [lia|]
  end;
  simpl;
  erewrite get_average_label_embeddings_run; [|done..];
  simpl.

(** C9. On the generation path the style is [randint(1, num_labels)], an
    integer of [[1, num_labels]] (every one of them can be drawn), and it
    is looked up in the dictionary of averages: the run stops with
    [KeyError] when no example kept carries the chosen label, and calls
    [network.generate_novel_sentences] with the average of that label
    otherwise.  So the lookup succeeds for every possible choice exactly
    when every label of [[1, num_labels]] occurs among the first
    [data_size - data_size mod batch_size] examples.  A run in which the
    examples kept all carry label 1, [num_labels] is 2 and the choice is 2
    ends with [KeyError] right after the averages are computed. *)
Theorem generation_needs_every_label (W : world) (d : dataset) (net : network)
    (offset samples_size : Z) (actual_word_lists : list (list string))
    (inverse_word_index : list (Z * string)) (timestamped_file_suffix : string)
    (se : list vec) (dim : nat) (st : pstate) :
  let n := truncated_size (cfg W) (d_data_size d) in
  let ls := d_label_sequences d in
  let choice := 1 + random_integer W (draws st) mod (d_num_labels d - 1 + 1) in
  let run := generate_novel_text_branch W d net offset samples_size
               actual_word_lists inverse_word_index timestamped_file_suffix st in
  batch_size (cfg W) ≠ 0 →
  files st !! all_style_embeddings_path (cfg W) = Some (StyleEmbeddings se) →
  (∀ i, (i < n)%nat → is_Some (label_at ls i)) →
  (∀ i, (i < n)%nat → ∃ e, se !! i = Some e ∧ length e = dim) →
  1 ≤ d_num_labels d →
  1 ≤ choice ≤ d_num_labels d ∧
  (∀ r, 1 ≤ r ≤ d_num_labels d → random_integer W (draws st) = r - 1 →
        choice = r) ∧
  ((∀ i, (i < n)%nat → label_at ls i ≠ Some choice) →
   run.1 = Raise KeyError) ∧
  ((∃ i, (i < n)%nat ∧ label_at ls i = Some choice) →
   ∃ e, np_mean_axis0 (labelled_embeddings ls se n choice) = Some e ∧
        GenerateNovelSentences (sessions st) offset samples_size e
          ∈ trace run.2) ∧
  (∃ avg,
     (get_average_label_embeddings W (d_data_size d) ls st).1 = Return avg ∧
     ((∀ r, 1 ≤ r ≤ d_num_labels d → is_Some (pydict_get avg r)) ↔
      (∀ r, 1 ≤ r ≤ d_num_labels d →
            ∃ i, (i < n)%nat ∧ label_at ls i = Some r))) ∧
  (let r := main Demo.lopsided_world (Demo.demo_argv false false true)
              Demo.demo_trained in
   r.1 = Raise KeyError ∧
   last (trace r.2)
   = Some (Log "DEBUG" "Pickled label mapped style embeddings" [])).
Proof.
  intros n ls choice run Hb Hfile Hlab Hemb Hnum.
  destruct (averages_of_prefix (cfg W) (d_data_size d) ls se dim Hb Hlab Hemb)
    as (m & avg & Hm & Havg & Hnd & Hkeys & Hval).
  assert (pydict_get avg choice = None → run.1 = Raise KeyError) as Hnone.
  { intros Hget. unfold run, choice in *. enter_generation. by rewrite Hget. }
  assert (∀ e, pydict_get avg choice = Some e →
               GenerateNovelSentences (sessions st) offset samples_size e
                 ∈ trace run.2) as Hsome.
  { intros e Hget. unfold run, choice in *. enter_generation. rewrite Hget.
    unfold network_generate_novel_sentences,
      execute_post_inference_operations, get_tensorflow_session,
      logger_info, logger_debug, write_file, emit, lift.
    unfold mbind, M_bind, mret, M_ret.
    split_run; rewrite ?elem_of_app, ?list_elem_of_singleton; tauto. }
  split; [|split; [|split; [|split; [|split]]]].
  - apply randint_in_range. done.
  - intros r Hr Hrand. unfold choice. rewrite Hrand.
    rewrite Z.mod_small by lia. lia.
  - intros Habs. apply Hnone.
    apply pydict_get_None. intros Hin. apply Hkeys in Hin as (i & Hi & Hl).
    by apply (Habs i).
  - intros Hex. apply Hkeys in Hex.
    pose proof (Hval choice Hex) as Hv.
    apply pydict_get_Some_keys in Hex as [e He].
    exists e. split; [unfold n; by rewrite <- Hv|]. by apply Hsome.
  - exists avg. split.
    + rewrite (get_average_label_embeddings_outcome W _ ls se st Hfile), Hm.
      simpl. exact Havg.
    + split; intros H r Hr.
      * apply Hkeys, pydict_get_Some_keys, H, Hr.
      * apply pydict_get_Some_keys, Hkeys, H, Hr.
  - split; by vm_compute.
Qed.

(** * The statements at concrete inputs *)

Lemma truncation_to_full_batches_witness :
  let W := Demo.demo_world in
  let n := 10 - 10 mod batch_size (cfg W) in
  sampling_range_size W 10 = Return 8 ∧
  label_embedding_loop (cfg W) 10 (label_sequences Demo.demo_labels)
    Demo.demo_style_embeddings
    = for_each (label_embedding_step (label_sequences Demo.demo_labels)
                  Demo.demo_style_embeddings) (Py.range 8) [].
Proof.
  intros W n.
  destruct (truncation_to_full_batches W 10 (actual_sequences Demo.demo_text)
              (label_sequences Demo.demo_labels) Demo.demo_style_embeddings)
    as (H1 & H2 & _).
  - reflexivity.
  - discriminate.
  - split; [exact H1 | exact H2].
Defined.

Lemma average_label_embeddings_per_label_witness :
  let W := Demo.demo_world in
  let ls := label_sequences Demo.demo_labels in
  ∃ avg,
    (get_average_label_embeddings W 10 ls Demo.demo_trained).1 = Return avg ∧
    NoDup (pydict_keys avg) ∧
    (∀ l, l ∈ pydict_keys avg ↔
          ∃ i, (i < 8)%nat ∧ label_at ls i = Some l) ∧
    (∀ l, l ∈ pydict_keys avg →
          pydict_get avg l =
            np_mean_axis0
              (labelled_embeddings ls Demo.demo_style_embeddings 8 l)) ∧
    (∀ l, l ∈ pydict_keys avg →
       ∃ v,
         pydict_get avg l = Some v ∧
         length v = 2%nat ∧
         labelled_embeddings ls Demo.demo_style_embeddings 8 l ≠ [] ∧
         Forall (fun e => length e = 2%nat)
           (labelled_embeddings ls Demo.demo_style_embeddings 8 l) ∧
         Forall2 Qeq v
           (elementwise_mean 2
              (labelled_embeddings ls Demo.demo_style_embeddings 8 l))).
Proof.
  intros W ls.
  destruct (average_label_embeddings_per_label W 10 ls
              Demo.demo_style_embeddings 2 Demo.demo_trained)
    as (avg & H1 & H2 & H3 & H4 & _ & H6).
  - discriminate.
  - vm_compute. reflexivity.
  - intros i Hi. assert (i < 8)%nat as Hi8 by exact Hi.
    do 8 (destruct i as [|i]; [vm_compute; eauto|]). lia.
  - intros i Hi. assert (i < 8)%nat as Hi8 by exact Hi.
    do 8 (destruct i as [|i]; [vm_compute; eauto|]). lia.
  - exists avg.
    split_and!; [exact H1 | exact H2 | exact H3 | exact H4 | exact H6].
Defined.

Lemma nothing_to_do_exits_zero_witness :
  (main Demo.demo_world (Demo.demo_argv false false false) (initial ∅)).1
  = SystemExit 0.
Proof.
  edestruct (nothing_to_do_exits_zero Demo.demo_world
               (Demo.demo_argv false false false)) as [H _];
    [reflexivity.. | exact H].
Defined.

Lemma post_inference_rows_have_max_length_witness :
  ∃ rows,
    trim_and_pad Demo.demo_world Demo.demo_words [[4; 5; 2; 2]; [3]] [2; 1] 3
    = Return rows ∧
    length rows = 2%nat ∧
    Forall (fun row => Z.of_nat (length row) = 3 ∧ Z.of_nat (length row) ≤ 3)
      rows.
Proof.
  destruct (post_inference_rows_have_max_length Demo.demo_world Demo.demo_words
              [] [[4; 5; 2; 2]; [3]] [2; 1] 3 [] "stamp" "mode" (initial ∅))
    as (rows & H1 & H2 & H3 & _).
  - discriminate.
  - discriminate.
  - vm_compute. eauto.
  - exists rows. split_and!; [exact H1 | exact H2 | exact H3].
Defined.

Lemma missing_path_fails_fast_witness :
  main Demo.demo_world Demo.demo_argv_no_text (initial ∅)
  = (SystemExit 2, initial ∅).
Proof.
  apply (missing_path_fails_fast Demo.demo_world Demo.demo_argv_no_text (initial ∅)).
  left. reflexivity.
Defined.

Lemma bleu_only_after_inference_witness :
  existsb is_bleu
    (trace (main Demo.demo_world (Demo.demo_argv true false false)
              (initial ∅)).2) = false.
Proof.
  apply (bleu_only_after_inference Demo.demo_world
           (Demo.demo_argv true false false) ∅); reflexivity.
Defined.

Lemma pretrained_flag_needs_training_witness :
  main Demo.demo_world
    (with_pretrained true (Demo.demo_argv false true false)) Demo.demo_trained
  = main Demo.demo_world (Demo.demo_argv false true false) Demo.demo_trained.
Proof.
  apply (pretrained_flag_needs_training Demo.demo_world
           (Demo.demo_argv false true false) true Demo.demo_trained).
  reflexivity.
Defined.

Lemma generation_needs_every_label_witness :
  ∃ e,
    np_mean_axis0
      (labelled_embeddings (label_sequences Demo.demo_labels)
         Demo.demo_style_embeddings 8 1) = Some e ∧
    GenerateNovelSentences 0 0 8 e
      ∈ trace (generate_novel_text_branch Demo.demo_world Demo.demo_dataset
                 Demo.demo_network 0 8 [] [] "stamp" Demo.demo_trained).2.
Proof.
  apply (generation_needs_every_label Demo.demo_world Demo.demo_dataset Demo.demo_network
           0 8 [] [] "stamp" Demo.demo_style_embeddings 2 Demo.demo_trained).
  - discriminate.
  - vm_compute. reflexivity.
  - intros i Hi. assert (i < 8)%nat as Hi8 by exact Hi.
    do 8 (destruct i as [|i]; [vm_compute; eauto|]). lia.
  - intros i Hi. assert (i < 8)%nat as Hi8 by exact Hi.
    do 8 (destruct i as [|i]; [vm_compute; eauto|]). lia.
  - discriminate.
  - exists 0%nat. split; [vm_compute; lia | reflexivity].
Defined.

Lemma markers_delimit_label_blocks_witness :
  ∃ embeddings markers,
    collect_embeddings Demo.demo_label_map = Return (embeddings, markers) ∧
    length markers = 4%nat ∧
    markers !! 0%nat = Some 0 ∧
    last markers = Some (Z.of_nat (length embeddings)).
Proof.
  destruct (markers_delimit_label_blocks Demo.demo_label_map)
    as (embeddings & markers & H1 & H2 & H3 & H4 & _).
  - unfold pydict_keys, Demo.demo_label_map. simpl.
    repeat (apply NoDup_cons_2; [intros H; absent_event H|]).
    apply NoDup_nil_2.
  - exists embeddings, markers. split_and!; [exact H1 | exact H2 | exact H3 | exact H4].
Defined.

(** * Further properties of the code *)

(** ** The inverse vocabulary *)

Lemma pydict_get_elem {K V} `{EqDecision K} (d : list (K * V)) (k : K) (v : V) :
  pydict_get d k = Some v → (k, v) ∈ d.
Proof.
  induction d as [|[k' v'] d IH]; simpl; [done|].
  destruct (decide (k' = k)) as [->|Hne].
  - intros [= ->]. apply list_elem_of_here.
  - intros H. apply list_elem_of_further. by apply IH.
Qed.

Lemma pydict_get_of_elem {K V} `{EqDecision K} (d : list (K * V)) (k : K) (v : V) :
  NoDup (pydict_keys d) → (k, v) ∈ d → pydict_get d k = Some v.
Proof.
  intros Hnd Hin. apply list_elem_of_lookup in Hin as [i Hi].
  by eapply pydict_get_lookup.
Qed.

Lemma invert_acc_other (wi : list (string * Z)) (acc : list (Z * string)) (v : Z) :
  v ∉ wi.*2 →
  pydict_get (foldl (fun d '(k, v) => pydict_set d v k) acc wi) v
  = pydict_get acc v.
Proof.
  revert acc. induction wi as [|[k0 v0] wi IH]; intros acc Hv; [done|].
  simpl in *. apply not_elem_of_cons in Hv as [Hne Hv].
  rewrite IH by done. by apply pydict_get_set_ne.
Qed.

Lemma invert_acc_elem (wi : list (string * Z)) (acc : list (Z * string))
    (k : string) (v : Z) :
  NoDup wi.*2 → (k, v) ∈ wi →
  pydict_get (foldl (fun d '(k, v) => pydict_set d v k) acc wi) v = Some k.
Proof.
  revert acc. induction wi as [|[k0 v0] wi IH]; intros acc Hnd Hin.
  - by apply elem_of_nil in Hin.
  - simpl in *. apply NoDup_cons in Hnd as [Hv0 Hnd].
    apply elem_of_cons in Hin as [[= -> ->]|Hin].
    + rewrite invert_acc_other by done. apply pydict_get_set_eq.
    + by apply IH.
Qed.

(** X1. When no two words share an index, the inverse vocabulary built in
    [main] undoes the vocabulary: it maps [v] to [k] exactly when the
    vocabulary maps [k] to [v]. *)
Theorem inverse_word_index_round_trip (word_index : list (string * Z))
    (k : string) (v : Z) :
  NoDup (pydict_keys word_index) → NoDup word_index.*2 →
  (pydict_get (invert_index word_index) v = Some k ↔
   pydict_get word_index k = Some v).
Proof.
  intros Hk Hv. unfold invert_index. split.
  - intros Hget. destruct (decide (v ∈ word_index.*2)) as [Hin|Hout].
    + apply list_elem_of_fmap in Hin as ([k' v'] & -> & Hin). simpl in *.
      rewrite (invert_acc_elem _ _ k' v' Hv Hin) in Hget.
      injection Hget as <-. by apply pydict_get_of_elem.
    + rewrite invert_acc_other in Hget by done. done.
  - intros Hget. apply invert_acc_elem; [done|]. by apply pydict_get_elem.
Qed.

(** ** Only the examples kept matter *)

Lemma for_each_ext {A S} (f g : S → A → outcome S) (l : list A) (s : S) :
  (∀ a s', a ∈ l → f s' a = g s' a) → for_each f l s = for_each g l s.
Proof.
  revert s. induction l as [|a l IH]; intros s Hext; simpl; [done|].
  rewrite (Hext a s) by apply list_elem_of_here.
  destruct (g s a); simpl; [|done..].
  apply IH. intros a' s' Ha'. apply Hext. by apply list_elem_of_further.
Qed.

Lemma elem_of_range (n i : Z) : i ∈ Py.range n → ∃ k : nat, i = Z.of_nat k ∧ (k < Z.to_nat n)%nat.
Proof.
  unfold Py.range. intros Hin. apply list_elem_of_fmap in Hin as (k & -> & Hk).
  apply elem_of_seq in Hk. exists k. split; [done|lia].
Qed.

Lemma label_embedding_loop_prefix_only (c : config) (data_size : Z)
    (ls ls' : list (list Z)) (se se' : list vec) :
  take (truncated_size c data_size) ls = take (truncated_size c data_size) ls' →
  take (truncated_size c data_size) se = take (truncated_size c data_size) se' →
  label_embedding_loop c data_size ls se = label_embedding_loop c data_size ls' se'.
Proof.
  intros Hls Hse. unfold label_embedding_loop.
  destruct (Py.mod_ data_size (batch_size c)) as [r| |] eqn:Hr; simpl; [|done..].
  assert (r = data_size mod batch_size c) as ->.
  { unfold Py.mod_ in Hr. destruct (decide _); [done|]. by injection Hr. }
  apply for_each_ext. intros i m Hi.
  apply elem_of_range in Hi as (k & -> & Hk). fold (truncated_size c data_size) in Hk.
  unfold label_embedding_step. rewrite !getitem_nat.
  assert (ls !! k = ls' !! k) as ->.
  { rewrite <- (lookup_take_lt ls _ k Hk), <- (lookup_take_lt ls' _ k Hk). by rewrite Hls. }
  assert (se !! k = se' !! k) as ->.
  { rewrite <- (lookup_take_lt se _ k Hk), <- (lookup_take_lt se' _ k Hk). by rewrite Hse. }
  done.
Qed.

(** X2. The averages depend only on the examples kept: two calls whose
    label sequences and stored style embeddings agree on the first
    [data_size - data_size mod batch_size] entries end the same way,
    whatever comes after. *)
Theorem averages_ignore_trailing_examples (W : world) (data_size : Z)
    (ls ls' : list (list Z)) (se se' : list vec) (st st' : pstate) :
  files st !! all_style_embeddings_path (cfg W) = Some (StyleEmbeddings se) →
  files st' !! all_style_embeddings_path (cfg W) = Some (StyleEmbeddings se') →
  take (truncated_size (cfg W) data_size) ls
    = take (truncated_size (cfg W) data_size) ls' →
  take (truncated_size (cfg W) data_size) se
    = take (truncated_size (cfg W) data_size) se' →
  (get_average_label_embeddings W data_size ls st).1
  = (get_average_label_embeddings W data_size ls' st').1.
Proof.
  intros Hf Hf' Hls Hse.
  rewrite (get_average_label_embeddings_outcome W data_size ls se st Hf).
  rewrite (get_average_label_embeddings_outcome W data_size ls' se' st' Hf').
  by rewrite (label_embedding_loop_prefix_only _ _ ls ls' se se' Hls Hse).
Qed.

(** ** What a completed loop has done *)

Lemma label_embedding_step_inv_nat (ls : list (list Z)) (se : list vec)
    (m m' : list (Z * list vec)) (k : nat) :
  label_embedding_step ls se m (Z.of_nat k) = Return m' →
  ∃ l e, label_at ls k = Some l ∧ se !! k = Some e ∧ m' = add_to_group m l e.
Proof.
  intros Hstep.
  destruct (label_at ls k) as [l|] eqn:Hl; last first.
  { exfalso. revert Hstep. unfold label_embedding_step, label_at in *.
    rewrite !getitem_nat. destruct (ls !! k) as [row|]; simpl in *; [|done].
    rewrite getitem_0, Hl. done. }
  destruct (se !! k) as [e|] eqn:He; last first.
  { exfalso. revert Hstep. unfold label_embedding_step, label_at in *.
    rewrite !getitem_nat. destruct (ls !! k) as [row|]; simpl in *; [|done].
    rewrite getitem_0, Hl, He. simpl.
    by destruct (of_option KeyError _). }
  exists l, e. split_and!; [done..|].
  rewrite (label_embedding_step_ok ls se m k l e Hl He) in Hstep.
  by injection Hstep.
Qed.

Lemma for_each_snoc_inv {A S} (f : S → A → outcome S) (l : list A) (a : A)
    (s s' : S) :
  for_each f (l ++ [a]) s = Return s' →
  ∃ s1, for_each f l s = Return s1 ∧ f s1 a = Return s'.
Proof.
  rewrite for_each_app. destruct (for_each f l s) as [s1| |]; simpl; [|done..].
  intros H. exists s1. split; [done|]. by destruct (f s1 a).
Qed.

Lemma pydict_set_concat (m : list (Z * list vec)) (l : Z) (g : list vec) :
  concat (pydict_set m l g).*2 ++ default [] (pydict_get m l)
  ≡ₚ concat m.*2 ++ g.
Proof.
  induction m as [|[l' g'] m IH]; csimpl.
  - by rewrite !app_nil_r.
  - destruct (decide (l' = l)) as [->|Hne]; csimpl.
    + rewrite (Permutation_app_comm _ g'), <- (app_assoc g').
      apply Permutation_app_head, Permutation_app_comm.
    + rewrite <- !app_assoc. apply Permutation_app_head, IH.
Qed.

Lemma add_to_group_concat (m : list (Z * list vec)) (l : Z) (e : vec) :
  concat (add_to_group m l e).*2 ≡ₚ concat m.*2 ++ [e].
Proof.
  unfold add_to_group.
  pose proof (pydict_set_concat m l (default [] (pydict_get m l) ++ [e])) as H.
  apply (Permutation_app_inv_r (default [] (pydict_get m l))).
  etrans; [exact H|]. rewrite <- app_assoc.
  apply Permutation_app_head, Permutation_app_comm.
Qed.

Lemma add_to_group_keys (m : list (Z * list vec)) (l : Z) (e : vec) :
  pydict_keys (add_to_group m l e)
  = if decide (l ∈ pydict_keys m) then pydict_keys m else pydict_keys m ++ [l].
Proof.
  unfold add_to_group. rewrite pydict_keys_set.
  destruct (pydict_mem m l) eqn:Hm.
  - apply pydict_mem_true in Hm. by rewrite decide_True.
  - rewrite decide_False; [done|]. intros Hin. apply pydict_mem_true in Hin. congruence.
Qed.

Lemma labels_of_prefix_S (ls : list (list Z)) (k : nat) (l : Z) :
  label_at ls k = Some l →
  labels_of_prefix ls (S k) = labels_of_prefix ls k ++ [l].
Proof.
  intros Hl. unfold labels_of_prefix. rewrite seq_S, omap_app. simpl. by rewrite Hl.
Qed.

Lemma first_occurrences_snoc (L : list Z) (l : Z) :
  first_occurrences (L ++ [l])
  = if decide (l ∈ first_occurrences L) then first_occurrences L
    else first_occurrences L ++ [l].
Proof. unfold first_occurrences. by rewrite foldl_app. Qed.

Lemma label_embedding_range_inv (ls : list (list Z)) (se : list vec)
    (k : nat) (m : list (Z * list vec)) :
  for_each (label_embedding_step ls se) (Py.range (Z.of_nat k)) [] = Return m →
  pydict_keys m = first_occurrences (labels_of_prefix ls k) ∧
  concat m.*2 ≡ₚ take k se ∧
  (k ≤ length se)%nat.
Proof.
  revert m. induction k as [|k IH]; intros m.
  - intros [= <-]. split_and!; [done|done|lia].
  - rewrite range_succ. intros Hrun.
    apply for_each_snoc_inv in Hrun as (m1 & Hrun & Hstep).
    apply label_embedding_step_inv_nat in Hstep as (l & e & Hl & He & ->).
    destruct (IH m1 Hrun) as (Hkeys & Hperm & Hlen). split_and!.
    + rewrite add_to_group_keys, (labels_of_prefix_S ls k l Hl),
        first_occurrences_snoc, Hkeys. done.
    + rewrite add_to_group_concat, (take_S_r se k e He). by rewrite Hperm.
    + apply lookup_lt_Some in He. lia.
Qed.

Lemma truncated_range (c : config) (data_size : Z) :
  Py.range (data_size - data_size mod batch_size c)
  = Py.range (Z.of_nat (truncated_size c data_size)).
Proof. unfold Py.range, truncated_size. by rewrite Nat2Z.id. Qed.

Lemma label_embedding_loop_inv (c : config) (data_size : Z)
    (ls : list (list Z)) (se : list vec) (m : list (Z * list vec)) :
  label_embedding_loop c data_size ls se = Return m →
  pydict_keys m
    = first_occurrences (labels_of_prefix ls (truncated_size c data_size)) ∧
  concat m.*2 ≡ₚ take (truncated_size c data_size) se ∧
  (truncated_size c data_size ≤ length se)%nat.
Proof.
  unfold label_embedding_loop, Py.mod_.
  destruct (decide (batch_size c = 0)); [done|]. simpl.
  rewrite truncated_range. apply label_embedding_range_inv.
Qed.

Lemma first_occurrences_NoDup (L : list Z) : NoDup (first_occurrences L).
Proof.
  induction L as [|x L IH] using rev_ind; [apply NoDup_nil_2|].
  rewrite first_occurrences_snoc. destruct (decide _) as [Hin|Hout]; [done|].
  apply NoDup_app. split_and!; [done| |apply NoDup_singleton].
  intros y Hy Hx. apply list_elem_of_singleton in Hx as ->. done.
Qed.

Lemma average_loop_means (m : list (Z * list vec)) (acc avg : list (Z * vec)) :
  for_each (fun average_label_embeddings '(label, group) =>
              v ← of_option ValueError (np_mean_axis0 group);
              mret (pydict_set average_label_embeddings label v)) m acc
    = Return avg →
  Forall (fun p => is_Some (np_mean_axis0 p.2)) m.
Proof.
  revert acc. induction m as [|[l g] m IH]; intros acc; simpl; [by constructor|].
  destruct (np_mean_axis0 g) as [v|] eqn:Hv; simpl; [|done].
  intros Hrun. constructor; [simpl; rewrite Hv; eauto|]. by eapply IH.
Qed.

Lemma bind_Return_inv {A B} (x : outcome A) (f : A → outcome B) (b : B) :
  x ≫= f = Return b → ∃ a, x = Return a ∧ f a = Return b.
Proof. destruct x; simpl; [eauto|done..]. Qed.

(** What a completed call of [get_average_label_embeddings] has computed
    and left behind. *)
Lemma get_average_label_embeddings_inv (W : world) (data_size : Z)
    (ls : list (list Z)) (se : list vec) (st : pstate) (avg : list (Z * vec)) :
  files st !! all_style_embeddings_path (cfg W) = Some (StyleEmbeddings se) →
  (get_average_label_embeddings W data_size ls st).1 = Return avg →
  ∃ m,
    label_embedding_loop (cfg W) data_size ls se = Return m ∧
    average_loop m = Return avg ∧
    NoDup (pydict_keys m) ∧
    pydict_keys avg = pydict_keys m ∧
    files (get_average_label_embeddings W data_size ls st).2
      !! label_mapped_style_embeddings_path (cfg W)
    = Some (LabelEmbeddingMap m).
Proof.
  intros Hfile Hret.
  rewrite (get_average_label_embeddings_outcome W data_size ls se st Hfile) in Hret.
  apply bind_Return_inv in Hret as (m & Hm & Havg).
  destruct (label_embedding_loop_inv _ _ _ _ _ Hm) as (Hkeys & _ & _).
  assert (NoDup (pydict_keys m)) as Hnd
    by (rewrite Hkeys; apply first_occurrences_NoDup).
  destruct (average_loop_ok m Hnd (average_loop_means m [] avg Havg))
    as (avg' & Havg' & Hk & _).
  assert (avg' = avg) as -> by congruence.
  exists m. split_and!; [done..|].
  rewrite (get_average_label_embeddings_run W data_size ls se st m avg Hfile Hm Havg).
  simpl. apply lookup_insert_eq.
Qed.

(** X3. The dictionary [get_average_label_embeddings] returns lists the
    labels in the order in which they first occur among the examples
    kept. *)
Theorem label_keys_in_order_of_first_occurrence (W : world) (data_size : Z)
    (ls : list (list Z)) (se : list vec) (st : pstate) (avg : list (Z * vec)) :
  files st !! all_style_embeddings_path (cfg W) = Some (StyleEmbeddings se) →
  (get_average_label_embeddings W data_size ls st).1 = Return avg →
  pydict_keys avg
  = first_occurrences (labels_of_prefix ls (truncated_size (cfg W) data_size)).
Proof.
  intros Hfile Hret.
  destruct (get_average_label_embeddings_inv W data_size ls se st avg Hfile Hret)
    as (m & Hm & _ & _ & Hk & _).
  rewrite Hk. by apply (label_embedding_loop_inv (cfg W) data_size ls se m).
Qed.

(** X4. The label-to-embeddings map that a completed call of
    [get_average_label_embeddings] pickles is one the t-SNE helper can
    lay out: the embeddings it collects are the stored embeddings of the
    examples kept, rearranged by label, and there is one marker per label
    plus the closing one. *)
Theorem pickled_label_map_plots_the_prefix (W : world) (data_size : Z)
    (ls : list (list Z)) (se : list vec) (st : pstate) (avg : list (Z * vec)) :
  files st !! all_style_embeddings_path (cfg W) = Some (StyleEmbeddings se) →
  (get_average_label_embeddings W data_size ls st).1 = Return avg →
  ∃ m embeddings markers,
    files (get_average_label_embeddings W data_size ls st).2
      !! label_mapped_style_embeddings_path (cfg W)
    = Some (LabelEmbeddingMap m) ∧
    collect_embeddings m = Return (embeddings, markers) ∧
    embeddings ≡ₚ take (truncated_size (cfg W) data_size) se ∧
    length embeddings = truncated_size (cfg W) data_size ∧
    length markers = S (length avg).
Proof.
  intros Hfile Hret.
  destruct (get_average_label_embeddings_inv W data_size ls se st avg Hfile Hret)
    as (m & Hm & _ & Hnd & Hk & Hf).
  destruct (label_embedding_loop_inv _ _ _ _ _ Hm) as (_ & Hperm & Hlen).
  eexists m, _, _. split_and!.
  - exact Hf.
  - by apply collect_embeddings_markers.
  - exact Hperm.
  - rewrite Hperm, length_take. lia.
  - rewrite length_fmap, length_seq. f_equal.
    unfold pydict_keys in Hk. 
    rewrite <- (length_fmap fst avg), Hk, length_fmap. done.
Qed.

(** ** Stored embeddings that do not cover the examples kept *)

Lemma range_split (n k : nat) :
  (k < n)%nat →
  Py.range (Z.of_nat n)
  = Py.range (Z.of_nat k) ++ Z.of_nat k :: (Z.of_nat <$> seq (S k) (n - S k)).
Proof.
  intros Hk. unfold Py.range. rewrite !Nat2Z.id.
  replace n with (k + S (n - S k))%nat at 1 by lia.
  rewrite seq_app, fmap_app. simpl. done.
Qed.

(** X5. When fewer style embeddings are stored than examples are kept,
    [get_average_label_embeddings] raises [IndexError], and no file is
    written. *)
Theorem short_style_embeddings_raise_IndexError (W : world) (data_size : Z)
    (ls : list (list Z)) (se : list vec) (st : pstate) :
  batch_size (cfg W) ≠ 0 →
  files st !! all_style_embeddings_path (cfg W) = Some (StyleEmbeddings se) →
  (length se < truncated_size (cfg W) data_size)%nat →
  (∀ i, (i ≤ length se)%nat → is_Some (label_at ls i)) →
  (get_average_label_embeddings W data_size ls st).1 = Raise IndexError ∧
  files (get_average_label_embeddings W data_size ls st).2 = files st.
Proof.
  intros Hb Hfile Hshort Hlab.
  assert (label_embedding_loop (cfg W) data_size ls se = Raise IndexError) as Hloop.
  { unfold label_embedding_loop, Py.mod_. rewrite decide_False by done. simpl.
    rewrite truncated_range, (range_split _ (length se)) by done.
    rewrite for_each_app.
    destruct (label_embedding_prefix ls se (length se) (length se))
      as (m & -> & _); [intros; apply Hlab; lia | | done |].
    { intros i Hi. by apply lookup_lt_is_Some_2. }
    simpl. destruct (Hlab (length se)) as [l Hl]; [done|].
    unfold label_embedding_step, label_at in *. rewrite !getitem_nat.
    destruct (ls !! length se) as [row|]; simpl in *; [|done].
    rewrite getitem_0, Hl. simpl.
    rewrite (lookup_ge_None_2 se (length se)) by done.
    destruct (pydict_mem m l) eqn:Hm.
    - apply pydict_mem_true, pydict_get_Some_keys in Hm as [g ->]. done.
    - by rewrite pydict_get_set_eq. }
  split.
  - rewrite (get_average_label_embeddings_outcome W data_size ls se st Hfile).
    by rewrite Hloop.
  - unfold get_average_label_embeddings.
    unfold mbind, M_bind, emit, read_file, write_file, logger_debug, emit, lift.
    simpl. rewrite Hfile. simpl. by rewrite Hloop.
Qed.

(** ** What is left of a generated sequence *)

(** X6. In the rows [execute_post_inference_operations] works on, what
    is kept of a generated sequence is its tokens before the reported
    final length (and before [max_sequence_length]); every later position
    holds the end-of-sequence index. *)
Theorem generated_tokens_end_at_final_length (W : world)
    (word_index : list (string * Z)) (generated_sequences : list (list Z))
    (final_sequence_lengths : list Z) (max_sequence_length eos : Z)
    (rows : list (list Z)) (i : nat) (x row : list Z) (y : Z) :
  pydict_get word_index (eos_token (cfg W)) = Some eos →
  trim_and_pad W word_index generated_sequences final_sequence_lengths
    max_sequence_length = Return rows →
  generated_sequences !! i = Some x →
  final_sequence_lengths !! i = Some y →
  0 ≤ y →
  rows !! i = Some row →
  let kept := Nat.min (Z.to_nat (Z.min y max_sequence_length)) (length x) in
  row = take kept x ++ replicate (Z.to_nat max_sequence_length - kept) eos ∧
  (∀ p, (Z.to_nat y ≤ p < Z.to_nat max_sequence_length)%nat →
        row !! p = Some eos).
Proof.
  intros Heos Hrun Hx Hy Hy0 Hrow kept.
  unfold trim_and_pad, pad_sequences in Hrun. rewrite Heos in Hrun. simpl in Hrun.
  destruct (decide (max_sequence_length < 0)) as [?|Hmax]; [done|].
  injection Hrun as <-.
  rewrite list_lookup_fmap, list_lookup_fmap in Hrow.
  assert (row = take kept x ++ replicate (Z.to_nat max_sequence_length - kept) eos)
    as Hshape.
  { assert (zip generated_sequences final_sequence_lengths !! i = Some (x, y)) as Hz.
    { apply lookup_zip_with_Some. eauto. }
    rewrite Hz in Hrow. simpl in Hrow. injection Hrow as <-.
    unfold Py.slice_to, Py.clamp.
    rewrite (decide_False (P := y < 0)) by lia.
    rewrite (decide_False (P := max_sequence_length < 0)) by lia.
    rewrite !length_take, take_take. unfold kept.
    f_equal; [f_equal; lia | f_equal; lia]. }
  split; [done|].
  intros p Hp. rewrite Hshape.
  assert (length (take kept x) = kept) as Hlen by (rewrite length_take; unfold kept; lia).
  rewrite lookup_app_r by (rewrite Hlen; unfold kept; lia).
  apply lookup_replicate_2. rewrite Hlen. unfold kept in *. lia.
Qed.

(** ** Reading the data *)

(** X7. [get_data] succeeds exactly when the vocabulary holds both the
    start and the end token: it then returns their indices, the number of
    padded sequences as [data_size] and the vocabulary size it was given;
    otherwise it raises [KeyError] before the label file is read. *)
Theorem get_data_needs_both_tokens (W : world) (text_file_path : string)
    (vocab_size : Z) (label_file_path : string) (st : pstate) :
  let t := get_text_sequences W text_file_path vocab_size in
  let r := get_data W text_file_path vocab_size label_file_path st in
  match pydict_get (word_index t) (sos_token (cfg W)),
        pydict_get (word_index t) (eos_token (cfg W)) with
  | Some sos, Some eos =>
      ∃ d, r.1 = Return d ∧
           d_sos_index d = sos ∧ d_eos_index d = eos ∧
           d_data_size d = Z.of_nat (length (padded_sequences t)) ∧
           d_data_size d = Z.of_nat (length (d_padded_sequences d)) ∧
           d_vocab_size d = vocab_size ∧
           GetLabels label_file_path
             ∈ events_of (get_data W text_file_path vocab_size label_file_path) st
  | _, _ =>
      r.1 = Raise KeyError ∧
      GetLabels label_file_path
        ∉ events_of (get_data W text_file_path vocab_size label_file_path) st
  end.
Proof.
  intros t r. unfold r, events_of, get_data.
  unfold mbind, M_bind, mret, M_ret, logger_debug, emit, lift. simpl. fold t.
  destruct (pydict_get (word_index t) (sos_token (cfg W))) as [sos|]; simpl.
  - destruct (pydict_get (word_index t) (eos_token (cfg W))) as [eos|]; simpl.
    + eexists. split_and!; try reflexivity.
      rewrite <- !app_assoc, drop_trace_app. simpl.
      do 3 apply list_elem_of_further. apply list_elem_of_here.
    + split; [done|]. rewrite <- !app_assoc, drop_trace_app. simpl.
      intros Hin. absent_event Hin.
  - split; [done|]. rewrite <- !app_assoc, drop_trace_app. simpl.
    intros Hin. absent_event Hin.
Qed.

(** ** Writing the ground truth *)

Lemma take_min_length {A} (a : nat) (s : list A) :
  take (Nat.min a (length s)) s = take a s.
Proof.
  destruct (Nat.min_spec a (length s)) as [[_ ->]|[Hle ->]]; [done|].
  by rewrite !take_ge by lia.
Qed.

(** X8. Let the vocabulary hold the end-of-sequence token, with index
    [eos], and let [flush_ground_truth_sentences] be called on the range
    [0 .. n] with [0 <= n <= len(actual_sequences)].  Whenever the call
    returns, [max_sequence_length] is not negative, it returns one word
    list per sample of the range, in order (word list [i] is what
    [generate_words_from_indices] makes of sequence [i] cut to
    [max_sequence_length] and filled up to it with [eos]), and the file
    [output/actual_sentences_<suffix>.txt] holds these word lists joined by
    spaces, one line per sample.  With a negative [max_sequence_length] the
    call raises [ValueError] and has opened no file for writing. *)
Theorem flush_returns_one_sentence_per_sample (W : world)
    (actual_sequences : list (list Z)) (n max_sequence_length eos : Z)
    (word_index : list (string * Z)) (inverse_word_index : list (Z * string))
    (timestamped_file_suffix : string) (st : pstate) :
  pydict_get word_index (eos_token (cfg W)) = Some eos →
  0 ≤ n ≤ Z.of_nat (length actual_sequences) →
  let run := flush_ground_truth_sentences W actual_sequences 0 (0 + n)
               max_sequence_length word_index inverse_word_index
               timestamped_file_suffix in
  (∀ words, (run st).1 = Return words →
     0 ≤ max_sequence_length ∧
     Z.of_nat (length words) = n ∧
     files (run st).2 !! ("output/actual_sentences_" +:+ timestamped_file_suffix
                            +:+ ".txt")
     = Some (TextLines (join_words <$> words)) ∧
     (∀ i s, (i < Z.to_nat n)%nat → actual_sequences !! i = Some s →
        words !! i
        = Some (generate_words_from_indices W
                  (take (Z.to_nat max_sequence_length) s
                   ++ replicate (Z.to_nat max_sequence_length - length s) eos)
                  inverse_word_index))) ∧
  (max_sequence_length < 0 →
     (run st).1 = Raise ValueError ∧
     files (run st).2 = files st ∧
     existsb is_write (events_of run st) = false).
Proof.
  intros Heos Hn run. unfold run, events_of, flush_ground_truth_sentences.
  unfold mbind, M_bind, mret, M_ret, emit, write_file, lift.
  rewrite Heos. simpl. unfold pad_sequences.
  destruct (decide (max_sequence_length < 0)) as [Hneg|Hmax]; simpl.
  { split; [done|]. intros _. split_and!; [done..|]. by rewrite drop_all. }
  split; [|lia]. intros words [= <-]. split_and!.
  - lia.
  - rewrite !length_fmap. by apply slice_prefix_length.
  - apply lookup_insert_eq.
  - intros i s Hi Hs. rewrite !list_lookup_fmap.
    assert (Py.slice actual_sequences 0 (0 + n) !! i = Some s) as ->.
    { unfold Py.slice, Py.clamp. rewrite Z.add_0_l.
      rewrite (decide_False (P := 0 < 0)) by lia.
      rewrite (decide_False (P := n < 0)) by lia.
      simpl. rewrite drop_0, lookup_take_lt by lia. done. }
    simpl. do 2 f_equal. unfold Py.slice_to, Py.clamp.
    rewrite (decide_False (P := max_sequence_length < 0)) by lia.
    rewrite take_min_length, length_take. do 2 f_equal. lia.
Qed.

(** ** After inference *)

(** X9. [execute_post_inference_operations] can return only when there is
    at least one final length, the vocabulary holds the end token and
    [max_sequence_length] is not negative.  With no final length it raises
    [ValueError] (at [min]); with a final length but no end token in the
    vocabulary it raises [KeyError]; with both but a negative
    [max_sequence_length] it raises [ValueError] (at [pad_sequences]).  In
    each of these three cases the BLEU scorer has not been called, no file
    has been opened for writing and the files are as before. *)
Theorem post_inference_fails_before_scoring (W : world)
    (word_index : list (string * Z)) (actual_word_lists : list (list string))
    (generated_sequences : list (list Z)) (final_sequence_lengths : list Z)
    (max_sequence_length : Z) (inverse_word_index : list (Z * string))
    (timestamped_file_suffix mode : string) (st : pstate) :
  let run := execute_post_inference_operations W word_index actual_word_lists
               generated_sequences final_sequence_lengths max_sequence_length
               inverse_word_index timestamped_file_suffix mode in
  let untouched :=
    files (run st).2 = files st ∧
    existsb (fun e => is_bleu e || is_write e) (events_of run st) = false in
  ((run st).1 = Return tt →
   final_sequence_lengths ≠ [] ∧
   is_Some (pydict_get word_index (eos_token (cfg W))) ∧
   0 ≤ max_sequence_length) ∧
  (final_sequence_lengths = [] →
   (run st).1 = Raise ValueError ∧ untouched) ∧
  (final_sequence_lengths ≠ [] →
   pydict_get word_index (eos_token (cfg W)) = None →
   (run st).1 = Raise KeyError ∧ untouched) ∧
  (final_sequence_lengths ≠ [] →
   is_Some (pydict_get word_index (eos_token (cfg W))) →
   max_sequence_length < 0 →
   (run st).1 = Raise ValueError ∧ untouched).
Proof.
  intros run untouched.
  unfold untouched, run, events_of, execute_post_inference_operations,
    trim_and_pad, pad_sequences.
  unfold mbind, M_bind, mret, M_ret, logger_debug, logger_info, emit, write_file, lift.
  destruct final_sequence_lengths as [|y ys]; simpl.
  { split_and!; try done. intros _. split_and!; [done..|]. by rewrite drop_all. }
  destruct (pydict_get word_index (eos_token (cfg W))) as [eos|]; simpl.
  - destruct (decide (max_sequence_length < 0)) as [Hneg|Hpos]; simpl.
    + split_and!; try done.
      intros _ _ _. split_and!; [done..|]. by rewrite drop_trace_app.
    + split_and!; try done.
      intros _. split_and!; [done|eauto|lia].
  - split_and!; try done.
    intros _ _. split_and!; [done..|]. by rewrite drop_trace_app.
Qed.

Lemma actual_path_not_generated (mode suffix : string) :
  "output/actual_sentences_" +:+ suffix +:+ ".txt"
  ≠ "output/generated_" +:+ mode +:+ "_" +:+ suffix +:+ ".txt".
Proof. simpl. discriminate. Qed.

Lemma reconstructed_path_not_novel (suffix suffix' : string) :
  "output/generated_" +:+ "reconstructed_sentences" +:+ "_" +:+ suffix +:+ ".txt"
  ≠ "output/generated_" +:+ "novel_sentences" +:+ "_" +:+ suffix' +:+ ".txt".
Proof. simpl. discriminate. Qed.

Lemma post_inference_frame (W : world)
    (word_index : list (string * Z)) (actual_word_lists : list (list string))
    (generated_sequences : list (list Z)) (final_sequence_lengths : list Z)
    (max_sequence_length : Z) (inverse_word_index : list (Z * string))
    (timestamped_file_suffix mode : string) (st : pstate) (p : string) :
  p ≠ "output/generated_" +:+ mode +:+ "_" +:+ timestamped_file_suffix +:+ ".txt" →
  files (execute_post_inference_operations W word_index actual_word_lists
           generated_sequences final_sequence_lengths max_sequence_length
           inverse_word_index timestamped_file_suffix mode st).2 !! p
  = files st !! p.
Proof.
  intros Hp. unfold execute_post_inference_operations.
  unfold mbind, M_bind, mret, M_ret, logger_debug, logger_info, emit, write_file, lift.
  destruct (Py.min_ final_sequence_lengths); simpl; [|done..].
  destruct (trim_and_pad _ _ _ _ _); simpl; [|done..].
  by rewrite lookup_insert_ne.
Qed.

(** X10. The output files of one run do not overwrite one another:
    writing the reconstructed sentences leaves the ground-truth file as it
    is, and writing the novel sentences leaves both the ground-truth file
    and the reconstructed sentences as they are. *)
Theorem novel_sentences_keep_earlier_outputs (W : world)
    (word_index : list (string * Z)) (actual_word_lists : list (list string))
    (generated_sequences : list (list Z)) (final_sequence_lengths : list Z)
    (max_sequence_length : Z) (inverse_word_index : list (Z * string))
    (timestamped_file_suffix : string) (st : pstate) :
  let after mode :=
    files (execute_post_inference_operations W word_index actual_word_lists
             generated_sequences final_sequence_lengths max_sequence_length
             inverse_word_index timestamped_file_suffix mode st).2 in
  let actual :=
    "output/actual_sentences_" +:+ timestamped_file_suffix +:+ ".txt" in
  let reconstructed :=
    "output/generated_reconstructed_sentences_" +:+ timestamped_file_suffix
      +:+ ".txt" in
  after "reconstructed_sentences" !! actual = files st !! actual ∧
  after "novel_sentences" !! actual = files st !! actual ∧
  after "novel_sentences" !! reconstructed = files st !! reconstructed.
Proof.
  intros after actual reconstructed. unfold after. split_and!.
  - apply post_inference_frame, actual_path_not_generated.
  - apply post_inference_frame, actual_path_not_generated.
  - apply post_inference_frame. unfold reconstructed.
    apply (reconstructed_path_not_novel timestamped_file_suffix
             timestamped_file_suffix).
Qed.

(** ** Plot coordinates *)

(** X11. Let the collected embeddings be at least one and of one
    dimension.  Whenever [generate_plot_coordinates] returns, the file at
    [coordinates_path] holds the markers with the coordinates, which are
    the embeddings themselves when these are two-dimensional and what
    t-SNE returned for them otherwise.  When the embeddings are not
    two-dimensional and t-SNE raises, the call raises the same exception
    and pickles nothing.  When they are two-dimensional t-SNE plays no
    part: the run is the same whatever t-SNE would do. *)
Theorem plot_coordinates_of_collected_embeddings
    (fit_transform : list vec → outcome (list vec)) (d : list (Z * list vec))
    (coordinates_path : string) (st : pstate) (r : vec) (rs : list vec) :
  NoDup (pydict_keys d) →
  concat d.*2 = r :: rs →
  Forall (fun x => length x = length r) rs →
  let run := generate_plot_coordinates fit_transform d coordinates_path in
  ∃ markers,
    collect_embeddings d = Return (r :: rs, markers) ∧
    ((run st).1 = Return tt →
     ∃ coordinates,
       files (run st).2 !! coordinates_path
       = Some (Coordinates coordinates markers) ∧
       (length r = 2%nat → coordinates = r :: rs) ∧
       (length r ≠ 2%nat → fit_transform (r :: rs) = Return coordinates)) ∧
    (length r ≠ 2%nat → ∀ e, fit_transform (r :: rs) = Raise e →
     (run st).1 = Raise e ∧
     files (run st).2 = files st ∧
     PickleDump coordinates_path ∉ events_of run st) ∧
    (length r = 2%nat → ∀ other,
     generate_plot_coordinates other d coordinates_path st = run st).
Proof.
  intros Hnd Hcat Hall run. eexists. split.
  { rewrite (collect_embeddings_markers d Hnd), Hcat. reflexivity. }
  unfold run, events_of, generate_plot_coordinates.
  rewrite (collect_embeddings_markers d Hnd), Hcat.
  unfold mbind, M_bind, mret, M_ret, logger_debug, logger_info, emit, write_file, lift.
  simpl.
  assert (forallb (fun x => Nat.eqb (length x) (length r)) rs = true) as ->.
  { apply forallb_forall. intros x Hx. apply Nat.eqb_eq.
    rewrite Forall_forall in Hall. apply Hall. by apply list_elem_of_In. }
  simpl. destruct (decide (Z.of_nat (length r) ≠ 2)) as [Hdim|Hdim]; simpl.
  - assert (length r ≠ 2%nat) as Hr by lia.
    destruct (fit_transform (r :: rs)) as [coordinates|e'|c] eqn:Hfit; simpl.
    + split_and!; [|done|done].
      intros _. exists coordinates. split_and!; [apply lookup_insert_eq|done|done].
    + split_and!; [done| |done].
      intros _ e [= <-]. split_and!; [done..|].
      rewrite <- !app_assoc, drop_trace_app. simpl. intros Hin. absent_event Hin.
    + split_and!; done.
  - assert (length r = 2%nat) as Hr by lia.
    split_and!; [|done|done].
    intros _. exists (r :: rs). split_and!; [apply lookup_insert_eq|done|done].
Qed.

(** X12. With no embedding to plot (no label, or empty groups only),
    [generate_plot_coordinates] raises [IndexError] at [shape[1]] and
    pickles nothing. *)
Theorem plot_coordinates_without_embeddings
    (fit_transform : list vec → outcome (list vec)) (d : list (Z * list vec))
    (coordinates_path : string) (st : pstate) :
  NoDup (pydict_keys d) →
  concat d.*2 = [] →
  let run := generate_plot_coordinates fit_transform d coordinates_path st in
  run.1 = Raise IndexError ∧
  files run.2 = files st ∧
  PickleDump coordinates_path ∉ events_of
    (generate_plot_coordinates fit_transform d coordinates_path) st.
Proof.
  intros Hnd Hcat run. unfold run, events_of, generate_plot_coordinates.
  rewrite (collect_embeddings_markers d Hnd), Hcat.
  unfold mbind, M_bind, mret, M_ret, logger_debug, logger_info, emit, write_file, lift.
  simpl. split_and!; [done..|].
  rewrite <- !app_assoc, drop_trace_app. simpl. intros Hin. absent_event Hin.
Qed.

(** ** Pure code does not exit *)

Lemma for_each_no_exit {A S} (f : S → A → outcome S) (l : list A) (s : S)
    (code : Z) :
  (∀ s' a c, f s' a ≠ SystemExit c) → for_each f l s ≠ SystemExit code.
Proof.
  intros Hf. revert s. induction l as [|a l IH]; intros s; simpl; [done|].
  destruct (f s a) as [s'| |c] eqn:Hfa; simpl; [apply IH|done|].
  by apply Hf in Hfa.
Qed.

Lemma getitem_no_exit {A} (l : list A) (i code : Z) :
  Py.getitem l i ≠ SystemExit code.
Proof.
  unfold Py.getitem. cbv zeta. destruct (decide _); [done|].
  by destruct (l !! _).
Qed.

Lemma label_embedding_loop_no_exit (c : config) (data_size : Z)
    (ls : list (list Z)) (se : list vec) (code : Z) :
  label_embedding_loop c data_size ls se ≠ SystemExit code.
Proof.
  unfold label_embedding_loop, Py.mod_. destruct (decide _); [done|]. simpl.
  apply for_each_no_exit. intros m i c'. unfold label_embedding_step.
  destruct (Py.getitem ls i) as [row| |?] eqn:H1; simpl; [|done|by apply getitem_no_exit in H1].
  destruct (Py.getitem row 0) as [l| |?] eqn:H2; simpl; [|done|by apply getitem_no_exit in H2].
  destruct (pydict_get _ l); simpl; [|done].
  destruct (Py.getitem se i) as [e| |?] eqn:H3; simpl; [done|done|by apply getitem_no_exit in H3].
Qed.

Lemma average_loop_no_exit (m : list (Z * list vec)) (code : Z) :
  average_loop m ≠ SystemExit code.
Proof.
  unfold average_loop. apply for_each_no_exit. intros acc [l g] c. simpl.
  by destruct (np_mean_axis0 g).
Qed.

Lemma pad_sequences_no_exit (sequences : list (list Z)) (maxlen value code : Z) :
  pad_sequences sequences maxlen value ≠ SystemExit code.
Proof. unfold pad_sequences. by destruct (decide _). Qed.

Lemma trim_and_pad_no_exit (W : world) (word_index : list (string * Z))
    (gs : list (list Z)) (fl : list Z) (maxlen code : Z) :
  trim_and_pad W word_index gs fl maxlen ≠ SystemExit code.
Proof.
  unfold trim_and_pad. destruct (pydict_get _ _); simpl; [|done].
  apply pad_sequences_no_exit.
Qed.

Lemma sampling_range_size_no_exit (W : world) (data_size code : Z) :
  sampling_range_size W data_size ≠ SystemExit code.
Proof. unfold sampling_range_size, Py.mod_. by destruct (decide _). Qed.

Lemma min_no_exit (l : list Z) (code : Z) : Py.min_ l ≠ SystemExit code.
Proof. by destruct l. Qed.

Lemma of_option_no_exit {A} (e : exn) (o : option A) (code : Z) :
  of_option e o ≠ SystemExit code.
Proof. by destruct o. Qed.

(** An impossible exit of pure code among the hypotheses. *)
Ltac no_exit :=
  exfalso;
  match goal with
  | H : label_embedding_loop _ _ _ _ = SystemExit _ |- _ =>
      by apply label_embedding_loop_no_exit in H
  | H : average_loop _ = SystemExit _ |- _ =>
      by apply average_loop_no_exit in H
  | H : pad_sequences _ _ _ = SystemExit _ |- _ =>
      by apply pad_sequences_no_exit in H
  | H : trim_and_pad _ _ _ _ _ = SystemExit _ |- _ =>
      by apply trim_and_pad_no_exit in H
  | H : sampling_range_size _ _ = SystemExit _ |- _ =>
      by apply sampling_range_size_no_exit in H
  | H : Py.min_ _ = SystemExit _ |- _ => by apply min_no_exit in H
  | H : of_option _ _ = SystemExit _ |- _ => by apply of_option_no_exit in H
  end.

Lemma main_run_shape (W : world) (argv : invocation)
    (fs : gmap string file_content) :
  one_session_at_a_time None (trace (main W argv (initial fs)).2)
  && phases_increase 0 (trace (main W argv (initial fs)).2)
  && model_built_first false (trace (main W argv (initial fs)).2) = true ∧
  exit_status (main W argv (initial fs)).1 = expected_exit argv.
Proof.
  unfold expected_exit. unfold_driver.
  case_flags argv; split_run; split; first [reflexivity | no_exit].
Qed.

(** X13. In every run of [main] a session is opened only when no other
    is open, the session closed is the open one, and [network.train],
    [network.infer] and [network.generate_novel_sentences] each run in the
    session that is open. *)
Theorem sessions_follow_one_another (W : world) (argv : invocation)
    (fs : gmap string file_content) :
  one_session_at_a_time None (trace (main W argv (initial fs)).2) = true.
Proof.
  destruct (main_run_shape W argv fs) as [H _].
  apply andb_prop in H as [H _]. by apply andb_prop in H as [H _].
Qed.

(** X14. In every run of [main] the text is read before the labels, the
    model is built after both, training comes before inference and
    inference before generation, each at most once; no session is opened
    before the model is built. *)
Theorem stages_in_order (W : world) (argv : invocation)
    (fs : gmap string file_content) :
  phases_increase 0 (trace (main W argv (initial fs)).2) = true ∧
  model_built_first false (trace (main W argv (initial fs)).2) = true.
Proof.
  destruct (main_run_shape W argv fs) as [H _].
  apply andb_prop in H as [H H3]. by apply andb_prop in H as [_ H2].
Qed.

(** X15. Once the command line has been parsed, [main] ends in
    [sys.exit] exactly when none of [--train-model], [--infer-sequences]
    and [--generate-novel-text] is given, and then with status 0: with one
    of the three flags set no path through [main] and the functions of
    [main.py] it calls reaches a [sys.exit], whatever the data and the
    files are. *)
Theorem parsed_run_exits_only_with_nothing_to_do (W : world)
    (argv : invocation) (args : command_line_args)
    (fs : gmap string file_content) :
  parse_args argv = Return args →
  exit_status (main W argv (initial fs)).1
  = if train_model args || infer_sequences args || generate_novel_text args
    then None else Some 0.
Proof.
  intros Hargs. destruct (main_run_shape W argv fs) as [_ ->].
  unfold expected_exit. unfold parse_args in Hargs.
  destruct (given_text_file_path argv); [|done].
  destruct (given_label_file_path argv); [|done].
  injection Hargs as <-. done.
Qed.

(** ** The range inference runs on *)

(** X16. In every run of [main], [network.infer] and
    [network.generate_novel_sentences] are called with offset 0 and with
    [data_size - data_size mod batch_size] samples, [data_size] being the
    number of padded sequences read. *)
Theorem inference_runs_on_full_batches (W : world) (argv : invocation)
    (text : string) (fs : gmap string file_content) :
  given_text_file_path argv = Some text →
  let data_size :=
    Z.of_nat (length (padded_sequences
                        (get_text_sequences W text
                           (default 1000 (given_vocab_size argv))))) in
  let n := data_size - data_size mod batch_size (cfg W) in
  (∀ sess offset samples_size,
     Infer sess offset samples_size ∈ trace (main W argv (initial fs)).2 →
     offset = 0 ∧ samples_size = n) ∧
  (∀ sess offset samples_size style_embedding,
     GenerateNovelSentences sess offset samples_size style_embedding
       ∈ trace (main W argv (initial fs)).2 →
     offset = 0 ∧ samples_size = n).
Proof.
  intros Htext data_size n.
  pose proof (main_samples_full_batches W argv text fs Htext) as Hall.
  rewrite Forall_forall in Hall. split.
  - intros sess offset samples_size Hin. exact (Hall _ Hin).
  - intros sess offset samples_size e Hin. exact (Hall _ Hin).
Qed.

(** ** Generation needs the stored style embeddings *)

(** A file other than the stored style embeddings was read. *)
Ltac not_stored H Hfs :=
  repeat (rewrite lookup_insert in H;
          match type of H with
          | context [decide (?a = ?b)] => destruct (decide (a = b))
          end; [discriminate H|]);
  rewrite Hfs in H; discriminate H.

Ltac split_run_reading Hfs :=
  repeat (simpl;
          match goal with
          | |- context [match ?x with _ => _ end] =>
              lazymatch x with
              | context [match _ with _ => _ end] => fail
              | (_ !! _) =>
                  let H := fresh "Hread" in
                  destruct x as [[]|] eqn:H; [exfalso; not_stored H Hfs|..]
              | _ => destruct x eqn:?
              end
          end);
  simpl.

(** X17. A run of [main] with the generate-novel-text flag and without
    the train-model flag, started when no style embeddings are stored,
    does not complete and never calls
    [network.generate_novel_sentences]. *)
Theorem generation_needs_stored_embeddings (W : world) (argv : invocation)
    (fs : gmap string file_content) :
  given_train_model argv = false →
  given_generate_novel_text argv = true →
  fs !! all_style_embeddings_path (cfg W) = None →
  (main W argv (initial fs)).1 ≠ Return tt ∧
  existsb is_generation (trace (main W argv (initial fs)).2) = false.
Proof.
  intros Ht Hg Hfs. unfold_driver.
  case_flags argv; split_run_reading Hfs; split; first [discriminate | reflexivity].
Qed.

(** * The further properties at concrete inputs *)

Ltac distinct_elements :=
  repeat (apply NoDup_cons_2; [let H := fresh in intros H; absent_event H|]);
  apply NoDup_nil_2.

Lemma inverse_word_index_round_trip_witness :
  pydict_get (invert_index Demo.demo_words) 3 = Some "good".
Proof.
  apply (inverse_word_index_round_trip Demo.demo_words "good" 3).
  - unfold pydict_keys, Demo.demo_words. simpl. distinct_elements.
  - unfold Demo.demo_words. simpl. distinct_elements.
  - reflexivity.
Defined.

Lemma averages_ignore_trailing_examples_witness :
  (get_average_label_embeddings Demo.demo_world 10
     (label_sequences Demo.demo_labels) Demo.demo_trained).1
  = (get_average_label_embeddings Demo.demo_world 10
       (take 8 (label_sequences Demo.demo_labels) ++ [[7]; [7]; [7]])
       DemoMore.demo_longer).1.
Proof.
  apply (averages_ignore_trailing_examples Demo.demo_world 10 _ _
           Demo.demo_style_embeddings
           (Demo.demo_style_embeddings ++ [[9%Q; 9%Q]])).
  - vm_compute. reflexivity.
  - vm_compute. reflexivity.
  - vm_compute. reflexivity.
  - vm_compute. reflexivity.
Defined.

Lemma label_keys_in_order_of_first_occurrence_witness :
  pydict_keys DemoMore.demo_averages
  = first_occurrences (labels_of_prefix (label_sequences Demo.demo_labels) 8).
Proof.
  apply (label_keys_in_order_of_first_occurrence Demo.demo_world 10
           (label_sequences Demo.demo_labels) Demo.demo_style_embeddings
           Demo.demo_trained DemoMore.demo_averages).
  - vm_compute. reflexivity.
  - vm_compute. reflexivity.
Defined.

Lemma pickled_label_map_plots_the_prefix_witness :
  ∃ m embeddings markers,
    files (get_average_label_embeddings Demo.demo_world 10
             (label_sequences Demo.demo_labels) Demo.demo_trained).2
      !! "label_mapped.pkl" = Some (LabelEmbeddingMap m) ∧
    collect_embeddings m = Return (embeddings, markers) ∧
    embeddings ≡ₚ take 8 Demo.demo_style_embeddings ∧
    length embeddings = 8%nat ∧
    length markers = 3%nat.
Proof.
  apply (pickled_label_map_plots_the_prefix Demo.demo_world 10
           (label_sequences Demo.demo_labels) Demo.demo_style_embeddings
           Demo.demo_trained DemoMore.demo_averages).
  - vm_compute. reflexivity.
  - vm_compute. reflexivity.
Defined.

Lemma short_style_embeddings_raise_IndexError_witness :
  (get_average_label_embeddings Demo.demo_world 10
     (label_sequences Demo.demo_labels) DemoMore.demo_short).1
  = Raise IndexError.
Proof.
  apply (short_style_embeddings_raise_IndexError Demo.demo_world 10
           (label_sequences Demo.demo_labels)
           (take 5 Demo.demo_style_embeddings) DemoMore.demo_short).
  - discriminate.
  - vm_compute. reflexivity.
  - vm_compute. lia.
  - intros i Hi. assert (i ≤ 5)%nat as Hi5 by exact Hi.
    do 6 (destruct i as [|i]; [vm_compute; eauto|]). lia.
Defined.

Lemma generated_tokens_end_at_final_length_witness :
  [4; 5; 2] = take 2 [4; 5; 2; 2] ++ replicate 1 2 ∧
  (∀ p, (2 ≤ p < 3)%nat → [4; 5; 2] !! p = Some 2).
Proof.
  apply (generated_tokens_end_at_final_length Demo.demo_world Demo.demo_words
           [[4; 5; 2; 2]] [2] 3 2 [[4; 5; 2]] 0 [4; 5; 2; 2] [4; 5; 2] 2);
    try reflexivity.
  discriminate.
Defined.

Lemma flush_returns_one_sentence_per_sample_witness :
  Z.of_nat (length (replicate 8 ["good"; "food"; "<eos>"])) = 8 ∧
  files (flush_ground_truth_sentences Demo.demo_world
           (actual_sequences Demo.demo_text) 0 (0 + 8) 3 Demo.demo_words
           (invert_index Demo.demo_words) "stamp" (initial ∅)).2
    !! "output/actual_sentences_stamp.txt"
  = Some (TextLines (join_words <$> replicate 8 ["good"; "food"; "<eos>"])).
Proof.
  destruct (flush_returns_one_sentence_per_sample Demo.demo_world
              (actual_sequences Demo.demo_text) 8 3 2 Demo.demo_words
              (invert_index Demo.demo_words) "stamp" (initial ∅))
    as [Hret _].
  - reflexivity.
  - vm_compute. split; discriminate.
  - destruct (Hret (replicate 8 ["good"; "food"; "<eos>"])) as (_ & H2 & H3 & _).
    + vm_compute. reflexivity.
    + split; [exact H2 | exact H3].
Defined.

Lemma post_inference_fails_before_scoring_witness :
  (execute_post_inference_operations Demo.demo_world Demo.demo_words [] [] []
     3 [] "stamp" "mode" (initial ∅)).1 = Raise ValueError.
Proof.
  destruct (post_inference_fails_before_scoring Demo.demo_world
              Demo.demo_words [] [] [] 3 [] "stamp" "mode" (initial ∅))
    as (_ & Hempty & _).
  destruct (Hempty eq_refl) as [H _]. exact H.
Defined.

Lemma plot_coordinates_of_collected_embeddings_witness :
  ∃ markers,
    collect_embeddings Demo.demo_plane_map
    = Return ([1%Q; 2%Q] :: [[3%Q; 4%Q]; [5%Q; 6%Q]], markers) ∧
    files (generate_plot_coordinates (fun _ => Raise ValueError)
             Demo.demo_plane_map "plot.pkl" (initial ∅)).2 !! "plot.pkl"
    = Some (Coordinates ([1%Q; 2%Q] :: [[3%Q; 4%Q]; [5%Q; 6%Q]]) markers).
Proof.
  destruct (plot_coordinates_of_collected_embeddings
              (fun _ => Raise ValueError) Demo.demo_plane_map "plot.pkl"
              (initial ∅) [1%Q; 2%Q] [[3%Q; 4%Q]; [5%Q; 6%Q]])
    as (markers & H1 & H2 & _).
  - unfold pydict_keys, Demo.demo_plane_map. simpl. distinct_elements.
  - reflexivity.
  - repeat constructor.
  - destruct (H2 eq_refl) as (coordinates & Hfile & Hplane & _).
    exists markers. split; [exact H1|].
    rewrite <- (Hplane eq_refl). exact Hfile.
Defined.

Lemma plot_coordinates_without_embeddings_witness :
  (generate_plot_coordinates (fun x => Return x) [(5, [])] "plot.pkl"
     (initial ∅)).1
  = Raise IndexError.
Proof.
  apply (plot_coordinates_without_embeddings (fun x => Return x) [(5, [])]
           "plot.pkl" (initial ∅)).
  - unfold pydict_keys. simpl. distinct_elements.
  - reflexivity.
Defined.

Lemma parsed_run_exits_only_with_nothing_to_do_witness :
  exit_status (main Demo.demo_world (Demo.demo_argv true false false)
                 (initial ∅)).1 = None ∧
  exit_status (main Demo.demo_world (Demo.demo_argv false false false)
                 (initial ∅)).1 = Some 0.
Proof.
  split.
  - exact (parsed_run_exits_only_with_nothing_to_do Demo.demo_world
             (Demo.demo_argv true false false) _ ∅ eq_refl).
  - exact (parsed_run_exits_only_with_nothing_to_do Demo.demo_world
             (Demo.demo_argv false false false) _ ∅ eq_refl).
Defined.

Lemma inference_runs_on_full_batches_witness :
  Infer 0 0 8
    ∈ trace (main Demo.demo_world (Demo.demo_argv false true false)
               (initial ∅)).2 ∧
  (0 = 0 ∧ 8 = 10 - 10 mod 4).
Proof.
  assert (Infer 0 0 8
            ∈ trace (main Demo.demo_world (Demo.demo_argv false true false)
                       (initial ∅)).2) as Hin.
  { vm_compute.
    repeat first [apply list_elem_of_here | apply list_elem_of_further]. }
  split; [exact Hin|].
  exact (proj1 (inference_runs_on_full_batches Demo.demo_world
                  (Demo.demo_argv false true false) "text.txt" ∅ eq_refl)
           0%nat 0 8 Hin).
Defined.

Lemma generation_needs_stored_embeddings_witness :
  existsb is_generation
    (trace (main Demo.demo_world (Demo.demo_argv false false true)
              (initial ∅)).2) = false.
Proof.
  apply (generation_needs_stored_embeddings Demo.demo_world
           (Demo.demo_argv false false true) ∅).
  - reflexivity.
  - reflexivity.
  - apply lookup_empty.
Defined.
